(** * Verification-code service: issuance, redemption, expiry and health

    A shallow embedding of the two Express servers of the repository
    (the files [part_000] and [part_001] under [src/unnamed]) and the
    properties of the verification-code lifecycle stated in the
    specification.

    The two servers share the table layout, the code generator and the
    SQL statements; they differ in the validity window (two minutes
    against five), in which SQLite callbacks inspect their error
    argument, in the guard of [/verify-code] and in the retry loop of
    [/health].  The shared part comes first, then one module per
    server, then the theorems. *)

From Stdlib Require Import ZArith List String Ascii Bool Lia.
From Stdlib Require Import Init.Byte.
From Equations Require Import Equations.
From Stdlib Require Import DecimalString.
Import ListNotations.
Open Scope string_scope.
Open Scope Z_scope.

(** ** JavaScript values and strings *)

(** A member of the parsed JSON body, or a variable read from it by
    destructuring: absent ([undefined]), JSON [null], or a string.
    Numbers, booleans, arrays and nested objects are outside the model. *)
Inductive value : Type :=
| undefined
| null
| str (s : string).

(** [!!v]: among the modelled values only a non-empty string is truthy. *)
Definition truthy (v : value) : bool :=
  match v with
  | str s => negb (s =? "")%string
  | _ => false
  end.

(** [`${v}`]: interpolation into a template literal. *)
Definition template (v : value) : string :=
  match v with
  | undefined => "undefined"
  | null => "null"
  | str s => s
  end.

Inductive exn : Type := TypeError.

(** Result of an expression that may throw. *)
Inductive result (A : Type) : Type :=
| Ok (a : A)
| Throw (e : exn).
Arguments Ok {A} a.
Arguments Throw {A} e.

Definition is_upper (c : ascii) : bool :=
  (65 <=? N_of_ascii c)%N && (N_of_ascii c <=? 90)%N.

Definition is_lower (c : ascii) : bool :=
  (97 <=? N_of_ascii c)%N && (N_of_ascii c <=? 122)%N.

Definition lower_char (c : ascii) : ascii :=
  if is_upper c then ascii_of_N (N_of_ascii c + 32) else c.

Definition upper_char (c : ascii) : ascii :=
  if is_lower c then ascii_of_N (N_of_ascii c - 32) else c.

Fixpoint map_string (f : ascii -> ascii) (s : string) : string :=
  match s with
  | EmptyString => EmptyString
  | String c s' => String (f c) (map_string f s')
  end.

(** [String.prototype.toLowerCase] and [toUpperCase].  Strings are byte
    strings here; the letters A-Z and a-z are remapped and every other
    byte is kept, which is what JavaScript does on ASCII text. *)
Definition toLowerCase (s : string) : string := map_string lower_char s.
Definition toUpperCase (s : string) : string := map_string upper_char s.

(** [v.toLowerCase()] on a variable: a [TypeError] unless [v] is a string. *)
Definition call_toLowerCase (v : value) : result string :=
  match v with
  | str s => Ok (toLowerCase s)
  | _ => Throw TypeError
  end.

(** ** CodeGenerator *)

(** One lowercase hexadecimal digit, for a nibble below 16. *)
Definition hex_digit (n : N) : ascii :=
  if (n <? 10)%N then ascii_of_N (48 + n) else ascii_of_N (87 + n).

(** [buf.toString('hex')]: two lowercase digits per byte, high nibble first. *)
Fixpoint toString_hex (buf : list byte) : string :=
  match buf with
  | [] => EmptyString
  | b :: buf' =>
      String (hex_digit (Byte.to_N b / 16))
        (String (hex_digit (Byte.to_N b mod 16)) (toString_hex buf'))
  end.

(** [crypto.randomBytes(n)]: the next [n] bytes of the entropy source. *)
Definition randomBytes (entropy : nat -> byte) (n : nat) : list byte :=
  map entropy (seq 0 n).

(** [generateCode()], identical in both servers. *)
Definition generateCode (entropy : nat -> byte) : string :=
  toUpperCase (toString_hex (randomBytes entropy 3)).

(** The alphabet of a code: a decimal digit or one of A-F. *)
Definition is_upper_hex (c : ascii) : bool :=
  let n := N_of_ascii c in
  ((48 <=? n)%N && (n <=? 57)%N) || ((65 <=? n)%N && (n <=? 70)%N).

Fixpoint string_forallb (p : ascii -> bool) (s : string) : bool :=
  match s with
  | EmptyString => true
  | String c s' => p c && string_forallb p s'
  end.

(** ** CodeStore: the table [verification_codes] *)

(** A bound parameter or a stored column of type TEXT: [None] is SQL NULL. *)
Definition sqltext : Type := option string.

(** Binding a JavaScript value to a [?]: a string is bound as TEXT;
    [null] is bound as NULL and [undefined] leaves the parameter
    unbound, which SQLite reads as NULL. *)
Definition bind (v : value) : sqltext :=
  match v with
  | str s => Some s
  | _ => None
  end.

Record row : Type := mkRow {
  id : Z;
  company : sqltext;
  username : sqltext;
  email : sqltext;
  code : sqltext;
  created_at : Z
}.

(** The table in rowid order, and the last id handed out by AUTOINCREMENT. *)
Record database : Type := mkDb {
  verification_codes : list row;
  sqlite_sequence : Z
}.

Definition empty_db : database := mkDb [] 0.

(** [col = ?] in a WHERE clause: true only for two equal non-NULL texts. *)
Definition sql_eq (col param : sqltext) : bool :=
  match col, param with
  | Some a, Some b => (a =? b)%string
  | _, _ => false
  end.

(** [INSERT INTO verification_codes (company, username, email, code,
    created_at) VALUES (?, ?, ?, ?, ?)]. *)
Definition insert_code (c u e k : sqltext) (t : Z) (d : database) : database :=
  let i := sqlite_sequence d + 1 in
  mkDb (verification_codes d ++ [mkRow i c u e k t]) i.

(** The WHERE clause of the lookup:
    [email = ? AND code = ? AND created_at > ?]. *)
Definition matches (e k : sqltext) (notBefore : Z) (r : row) : bool :=
  sql_eq (email r) e && sql_eq (code r) k && (created_at r >? notBefore).

(** [SELECT * FROM verification_codes WHERE ...] through [db.get]: the
    first matching row, or nothing. *)
Definition select_code (e k : sqltext) (notBefore : Z) (d : database) : option row :=
  find (matches e k notBefore) (verification_codes d).

(** [DELETE FROM verification_codes WHERE created_at < ?]. *)
Definition delete_older (cutoff : Z) (d : database) : database :=
  mkDb (filter (fun r => negb (created_at r <? cutoff)) (verification_codes d))
       (sqlite_sequence d).

(** A statement submitted with [db.run]: it either takes effect or fails
    and leaves the table as it was.  [failed] is the outcome the driver
    reports (to the callback, when there is one).  Without a callback the
    driver raises the failure as an 'error' event, which the servers do
    not handle: what becomes of the process after that is not part of
    this model, only that no handler reads the outcome. *)
Definition db_run (failed : bool) (stmt : database -> database) (d : database) : database :=
  if failed then d else stmt d.

(** ** HTTP responses, outgoing mail and the state of a server *)

#[local] Unset Elimination Schemes.
Inductive json : Type :=
| JString (s : string)
| JBool (b : bool)
| JObject (members : list (string * json)).
#[local] Set Elimination Schemes.

Record response : Type := mkResponse {
  status : Z;
  body : json
}.

(** [res.json(o)] without [res.status]: the status stays 200. *)
Definition res_json (o : json) : response := mkResponse 200 o.

(** What a handler does with a request: it answers, or an exception
    escapes from it before any answer. *)
Inductive outcome : Type :=
| Responded (r : response)
| Uncaught (e : exn).

(** The [mailOptions] object handed to [transporter.sendMail]. *)
Record mail : Type := mkMail {
  from : string;
  to : string;
  subject : string;
  html : string
}.

(** The table, and the messages handed to the mail transport so far. *)
Record world : Type := mkWorld {
  db : database;
  sent : list mail
}.

Definition initial : world := mkWorld empty_db [].

Definition dq : string := String (ascii_of_N 34) "".
Definition nl : string := String (ascii_of_N 10) "".

Module RequestCode.
(** The body of [POST /request-code]. *)
Record body : Type := mk {
  company : value;
  username : value;
  email : value
}.
End RequestCode.

Module VerifyCode.
(** The body of [POST /verify-code]. *)
Record body : Type := mk {
  email : value;
  code : value
}.
End VerifyCode.

(** What the surroundings contribute to one issuance: the configured
    sender, the clock, the entropy source, and whether the INSERT and
    the delivery fail. *)
Record issue_env : Type := mkIssueEnv {
  GMAIL_USER : value;
  issue_now : Z;
  entropy : nat -> byte;
  insert_failed : bool;
  sendMail_failed : bool
}.

(** For one redemption: the clock and whether the SELECT fails. *)
Record redeem_env : Type := mkRedeemEnv {
  redeem_now : Z;
  select_failed : bool
}.

(** For one health check: whether [SELECT 1] fails, the verdict of the
    k-th call of [transporter.verify], and the rendered timestamp. *)
Record health_env : Type := mkHealthEnv {
  ping_failed : bool;
  verify_ok : nat -> bool;
  timestamp : string
}.

(** What a health check does to the outside: handshakes and timers. *)
Inductive effect : Type :=
| Verify (success : bool)
| SetTimeout (ms : Z).

(** What can happen to a server.  A request is taken as one transition:
    the statements it submits and the mail it hands over take effect
    before the next event is looked at. *)
Inductive event : Type :=
| Issue (env : issue_env) (b : RequestCode.body)
| Redeem (env : redeem_env) (b : VerifyCode.body)
| Sweep (now : Z) (delete_failed : bool)
| Probe (env : health_env).

(** * The server of [part_000] *)

Module Part000.

(** The validity window, written [2 * 60 * 1000] wherever it is used. *)
Definition TTL : Z := 2 * 60 * 1000.

(** The callback of [setInterval(..., 60000)]; [db.run] gets no callback. *)
Definition cleanup (now : Z) (delete_failed : bool) (w : world) : world :=
  let expiry := now - 2 * 60 * 1000 in
  mkWorld (db_run delete_failed (delete_older expiry) (db w)) (sent w).

(** [POST /request-code].  The INSERT is submitted without a callback,
    so its outcome is not looked at; the answer waits for the mail. *)
Definition request_code (env : issue_env) (b : RequestCode.body) (w : world)
  : outcome * world :=
  let company := RequestCode.company b in
  let username := RequestCode.username b in
  let email := RequestCode.email b in
  if negb (truthy company) || negb (truthy username) || negb (truthy email) then
    (Responded (mkResponse 400 (JObject
       [("message", JString "Company, username, and email are required.")])), w)
  else
    match call_toLowerCase email with
    | Throw e => (Uncaught e, w)
    | Ok normalizedEmail =>
      let code := generateCode (entropy env) in
      let createdAt := issue_now env in
      let db1 :=
        db_run (insert_failed env)
          (insert_code (bind company) (bind username)
                       (Some normalizedEmail) (Some code) createdAt) (db w) in
      let mailOptions := mkMail
        (dq ++ template company ++ " Verification" ++ dq ++
           " <" ++ template (GMAIL_USER env) ++ ">")
        normalizedEmail
        (template company ++ " | Verification Code")
        (String.concat nl [
          "";
          "      <div style=" ++ dq ++ "font-family: Arial, sans-serif;" ++ dq ++ ">";
          "        <h2>" ++ template company ++ " Verification</h2>";
          "        <p>Hello <strong>" ++ template username ++ "</strong>,</p>";
          "        <p>Your verification code is:</p>";
          "        <div style=" ++ dq ++ "font-size: 24px; font-weight: bold;" ++ dq ++ ">" ++ code ++ "</div>";
          "        <p>This code expires in 2 minutes.</p>";
          "      </div>";
          "    " ]) in
      let w1 := mkWorld db1 (sent w ++ [mailOptions]) in
      if sendMail_failed env then
        (Responded (mkResponse 500 (JObject
           [("message", JString "Email failed to send.")])), w1)
      else
        (Responded (res_json (JObject
           [("message", JString "Verification code sent.")])), w1)
    end.

(** [POST /verify-code].  There is no guard on the body here. *)
Definition verify_code (env : redeem_env) (b : VerifyCode.body) (w : world)
  : outcome * world :=
  let email := VerifyCode.email b in
  let code := VerifyCode.code b in
  let now := redeem_now env in
  match call_toLowerCase email with
  | Throw e => (Uncaught e, w)
  | Ok lowered =>
    if select_failed env then
      (Responded (mkResponse 500 (JObject
         [("valid", JBool false); ("message", JString "Database error.")])), w)
    else
      match select_code (Some lowered) (bind code) (now - 2 * 60 * 1000) (db w) with
      | Some _ =>
        (Responded (res_json (JObject
           [("valid", JBool true); ("message", JString "Code is valid.")])), w)
      | None =>
        (Responded (mkResponse 400 (JObject
           [("valid", JBool false);
            ("message", JString "Invalid or expired code.")])), w)
      end
  end.

(** [attempt(n)] inside [verifySMTPWithRetry]; [k] counts the earlier
    calls of [transporter.verify].  [n] is an integer that a double holds
    exactly (the server passes 3), so that [n - 1] is the integer below. *)
Equations? attempt (verify_ok : nat -> bool) (delay : Z) (n : Z) (k : nat)
  : string * list effect by wf (Z.to_nat n) lt :=
  attempt verify_ok delay n k with verify_ok k => {
    | true := ("ok", [Verify true]);
    | false with Z_le_gt_dec n 0 => {
      | left _ := ("error", [Verify false]);
      | right _ :=
          let r := attempt verify_ok delay (n - 1) (S k) in
          (fst r, Verify false :: SetTimeout delay :: snd r) } }.
Proof. lia. Qed.

Definition verifySMTPWithRetry (verify_ok : nat -> bool) (retries delay : Z)
  : string * list effect :=
  attempt verify_ok delay retries 0.

(** [GET /health]. *)
Definition health (env : health_env) (w : world) : response * list effect :=
  let dbStatus := if ping_failed env then "error" else "ok" in
  let (smtpStatus, effects) := verifySMTPWithRetry (verify_ok env) 3 1000 in
  let allOk := (dbStatus =? "ok")%string && (smtpStatus =? "ok")%string in
  (mkResponse (if allOk then 200 else 500) (JObject
     [("status", JString (if allOk then "ok" else "error"));
      ("components", JObject
         [("http", JString "ok");
          ("database", JString dbStatus);
          ("smtp", JString smtpStatus)]);
      ("timestamp", JString (timestamp env))]),
   effects).

Definition step (ev : event) (w : world) : world :=
  match ev with
  | Issue env b => snd (request_code env b w)
  | Redeem env b => snd (verify_code env b w)
  | Sweep now delete_failed => cleanup now delete_failed w
  | Probe _ => w
  end.

Definition run (evs : list event) (w : world) : world :=
  fold_left (fun w' ev => step ev w') evs w.

(** The same redemption request presented once per element of [envs]. *)
Fixpoint replay (envs : list redeem_env) (b : VerifyCode.body) (w : world)
  : list outcome * world :=
  match envs with
  | [] => ([], w)
  | env :: envs' =>
      let (o, w1) := verify_code env b w in
      let (os, w2) := replay envs' b w1 in
      (o :: os, w2)
  end.

End Part000.

(** * The server of [part_001] *)

Module Part001.

(** The validity window, written [5 * 60 * 1000] wherever it is used. *)
Definition TTL : Z := 5 * 60 * 1000.

(** The callback of [setInterval(..., 60000)]; [db.run] gets no callback. *)
Definition cleanup (now : Z) (delete_failed : bool) (w : world) : world :=
  let expiry := now - 5 * 60 * 1000 in
  mkWorld (db_run delete_failed (delete_older expiry) (db w)) (sent w).

(** [POST /request-code].  The mail is composed and sent from the
    callback of the INSERT, after its error argument has been tested. *)
Definition request_code (env : issue_env) (b : RequestCode.body) (w : world)
  : outcome * world :=
  let company := RequestCode.company b in
  let username := RequestCode.username b in
  let email := RequestCode.email b in
  if negb (truthy company) || negb (truthy username) || negb (truthy email) then
    (Responded (mkResponse 400 (JObject
       [("message", JString "Company, username, and email are required.")])), w)
  else
    match call_toLowerCase email with
    | Throw e => (Uncaught e, w)
    | Ok normalizedEmail =>
      let code := generateCode (entropy env) in
      let createdAt := issue_now env in
      let db1 :=
        db_run (insert_failed env)
          (insert_code (bind company) (bind username)
                       (Some normalizedEmail) (Some code) createdAt) (db w) in
      if insert_failed env then
        (Responded (mkResponse 500 (JObject
           [("message", JString "Failed to store code.")])),
         mkWorld db1 (sent w))
      else
        let codeDigits :=
          String.concat ""
            (map (fun c => "<div>" ++ String c "" ++ "</div>")
                 (list_ascii_of_string code)) in
        let mailOptions := mkMail
          (dq ++ template company ++ " Verification" ++ dq ++
             " <" ++ template (GMAIL_USER env) ++ ">")
          normalizedEmail
          (template company ++ " | Your Verification Code")
          (String.concat nl [
          "";
          "<!DOCTYPE html>";
          "<html lang=" ++ dq ++ "en" ++ dq ++ ">";
          "<head>";
          "  <meta charset=" ++ dq ++ "UTF-8" ++ dq ++ " />";
          "  <meta name=" ++ dq ++ "viewport" ++ dq ++ " content=" ++ dq ++ "width=device-width, initial-scale=1.0" ++ dq ++ "/>";
          "  <title>Email Verification</title>";
          "  <style>";
          "    body {";
          "      font-family: Arial, sans-serif;";
          "      background-color: #f5f7fa;";
          "      margin: 0;";
          "      padding: 0;";
          "    }";
          "    .container {";
          "      background: white;";
          "      max-width: 480px;";
          "      margin: 40px auto;";
          "      border-radius: 6px;";
          "      overflow: hidden;";
          "      box-shadow: 0 0 8px rgba(0,0,0,0.1);";
          "    }";
          "    .header {";
          "      background-color: #2979ff;";
          "      color: white;";
          "      padding: 30px 20px;";
          "      text-align: center;";
          "    }";
          "    .content {";
          "      padding: 20px;";
          "      color: #333;";
          "    }";
          "    .otp-box {";
          "      display: flex;";
          "      justify-content: center;";
          "      margin: 20px 0;";
          "    }";
          "    .otp-box div {";
          "      font-size: 24px;";
          "      font-weight: bold;";
          "      border: 1px solid #ccc;";
          "      padding: 10px 15px;";
          "      margin: 0 5px;";
          "      border-radius: 4px;";
          "      background-color: #f0f0f0;";
          "    }";
          "    .note {";
          "      font-size: 14px;";
          "      margin-bottom: 20px;";
          "      text-align: center;";
          "    }";
          "    .btn {";
          "      display: block;";
          "      width: 150px;";
          "      margin: 0 auto 20px;";
          "      background-color: #ff5722;";
          "      color: white;";
          "      text-align: center;";
          "      padding: 10px 0;";
          "      text-decoration: none;";
          "      border-radius: 4px;";
          "      font-weight: bold;";
          "    }";
          "  </style>";
          "</head>";
          "<body>";
          "  <div class=" ++ dq ++ "container" ++ dq ++ ">";
          "    <div class=" ++ dq ++ "header" ++ dq ++ ">";
          "      <h2>" ++ template company ++ "</h2>";
          "      <p>THANKS FOR SIGNING UP!</p>";
          "      <h3>Verify Your E-Mail Address</h3>";
          "    </div>";
          "    <div class=" ++ dq ++ "content" ++ dq ++ ">";
          "      <p>Hello " ++ template username ++ ",</p>";
          "      <p>Please use the following One Time Password (OTP):</p>";
          "      <div class=" ++ dq ++ "otp-box" ++ dq ++ ">" ++ codeDigits ++ "</div>";
          "      <p class=" ++ dq ++ "note" ++ dq ++ ">";
          "        This passcode will only be valid for the next <strong>5 minutes</strong>.";
          "      </p>";
          "      <a class=" ++ dq ++ "btn" ++ dq ++ " href=" ++ dq ++ "#" ++ dq ++ ">Verify Email</a>";
          "    </div>";
          "  </div>";
          "</body>";
          "</html>";
          "        " ]) in
        let w1 := mkWorld db1 (sent w ++ [mailOptions]) in
        if sendMail_failed env then
          (Responded (mkResponse 500 (JObject
             [("message", JString "Email failed to send.")])), w1)
        else
          (Responded (res_json (JObject
             [("message", JString "Verification code sent.")])), w1)
    end.

(** [POST /verify-code], with its guard on the two members of the body. *)
Definition verify_code (env : redeem_env) (b : VerifyCode.body) (w : world)
  : outcome * world :=
  let email := VerifyCode.email b in
  let code := VerifyCode.code b in
  let now := redeem_now env in
  let expiry := now - 5 * 60 * 1000 in
  if negb (truthy email) || negb (truthy code) then
    (Responded (mkResponse 400 (JObject
       [("valid", JBool false);
        ("message", JString "Email and code are required.")])), w)
  else
    match call_toLowerCase email with
    | Throw e => (Uncaught e, w)
    | Ok lowered =>
      if select_failed env then
        (Responded (mkResponse 500 (JObject
           [("valid", JBool false); ("message", JString "Database error.")])), w)
      else
        match select_code (Some lowered) (bind code) expiry (db w) with
        | Some _ =>
          (Responded (res_json (JObject
             [("valid", JBool true);
              ("message", JString "✅ Code is valid!")])), w)
        | None =>
          (Responded (mkResponse 400 (JObject
             [("valid", JBool false);
              ("message", JString "❌ Invalid or expired code.")])), w)
        end
    end.

(** [GET /health]: one handshake, no retry. *)
Definition health (env : health_env) (w : world) : response * list effect :=
  let dbStatus := if ping_failed env then "error" else "ok" in
  let smtpStatus := if verify_ok env 0%nat then "ok" else "error" in
  let allOk := (dbStatus =? "ok")%string && (smtpStatus =? "ok")%string in
  (mkResponse (if allOk then 200 else 500) (JObject
     [("status", JString (if allOk then "ok" else "error"));
      ("components", JObject
         [("http", JString "ok");
          ("database", JString dbStatus);
          ("smtp", JString smtpStatus)]);
      ("timestamp", JString (timestamp env))]),
   [Verify (verify_ok env 0%nat)]).

Definition step (ev : event) (w : world) : world :=
  match ev with
  | Issue env b => snd (request_code env b w)
  | Redeem env b => snd (verify_code env b w)
  | Sweep now delete_failed => cleanup now delete_failed w
  | Probe _ => w
  end.

Definition run (evs : list event) (w : world) : world :=
  fold_left (fun w' ev => step ev w') evs w.

(** The same redemption request presented once per element of [envs]. *)
Fixpoint replay (envs : list redeem_env) (b : VerifyCode.body) (w : world)
  : list outcome * world :=
  match envs with
  | [] => ([], w)
  | env :: envs' =>
      let (o, w1) := verify_code env b w in
      let (os, w2) := replay envs' b w1 in
      (o :: os, w2)
  end.

End Part001.

(** * Properties *)

(** ** Vocabulary of the statements *)

(** The two verdicts of a redemption, whatever the wording of the message. *)
Definition Valid (o : outcome) : Prop :=
  exists msg, o = Responded (mkResponse 200 (JObject
    [("valid", JBool true); ("message", JString msg)])).

Definition Invalid (o : outcome) : Prop :=
  exists msg, o = Responded (mkResponse 400 (JObject
    [("valid", JBool false); ("message", JString msg)])).

(** The table holds a record for the lowercased [e] and for [c] that
    was created after [now - ttl]. *)
Definition live_match (ttl : Z) (e c : string) (now : Z) (w : world) : Prop :=
  exists r, In r (verification_codes (db w)) /\
            email r = Some (toLowerCase e) /\
            code r = Some c /\
            created_at r > now - ttl.

(** A code as the generator makes it: six characters, each 0-9 or A-F. *)
Definition is_code (s : string) : bool :=
  (String.length s =? 6)%nat && string_forallb is_upper_hex s.

(** A row as an issuance writes it. *)
Definition issued (r : row) : bool :=
  match email r, code r with
  | Some e, Some c => negb (e =? "")%string && is_code c
  | _, _ => false
  end.

Definition well_formed (d : database) : bool :=
  forallb issued (verification_codes d).

(** The sweeps of a trace all happen at [t] or before. *)
Definition sweeps_by (t : Z) (evs : list event) : Prop :=
  Forall (fun ev => match ev with Sweep now _ => now <= t | _ => True end) evs.

(** [sep] between the elements of [l], as timers sit between handshakes. *)
Fixpoint intersperse {A : Type} (sep : A) (l : list A) : list A :=
  match l with
  | [] => []
  | [x] => [x]
  | x :: l' => x :: sep :: intersperse sep l'
  end.

(** An issuance environment with another entropy source. *)
Definition with_entropy (env : issue_env) (f : nat -> byte) : issue_env :=
  mkIssueEnv (GMAIL_USER env) (issue_now env) f
             (insert_failed env) (sendMail_failed env).

(** A body whose three members are non-empty strings. *)
Definition accepted (b : RequestCode.body) : bool :=
  truthy (RequestCode.company b) && truthy (RequestCode.username b) &&
  truthy (RequestCode.email b).

(** The row that an accepted issuance submits. *)
Definition issued_row (env : issue_env) (co u e : string) (d : database) : row :=
  mkRow (sqlite_sequence d + 1) (Some co) (Some u) (Some (toLowerCase e))
        (Some (generateCode (entropy env))) (issue_now env).

(** How many handshakes a budget of [budget] attempts gives rise to,
    starting at the [k]-th: one more than the failures before the first
    success, and never more than the budget. *)
Fixpoint handshakes (verify_ok : nat -> bool) (k budget : nat) : nat :=
  match budget with
  | O => O
  | S m => if verify_ok k then 1%nat else S (handshakes verify_ok (S k) m)
  end.

(** The body of a health report. *)
Definition report (overall database smtp stamp : string) : json :=
  JObject
    [("status", JString overall);
     ("components", JObject
        [("http", JString "ok");
         ("database", JString database);
         ("smtp", JString smtp)]);
     ("timestamp", JString stamp)].

Definition mark (ok : bool) : string := if ok then "ok" else "error".

(** [x] occurs in [s] as a contiguous piece. *)
Definition occurs (x s : string) : Prop :=
  exists pre post, s = pre ++ x ++ post.

(** [code.split('').map(c => `<div>${c}</div>`).join('')] of [part_001]. *)
Definition codeDigits (code : string) : string :=
  String.concat ""
    (map (fun c => "<div>" ++ String c "" ++ "</div>") (list_ascii_of_string code)).

(** ** Sample data for the instances below *)

Definition sample_entropy (k : nat) : byte :=
  match k with
  | O => x0a
  | S O => xbc
  | _ => xff
  end.

Definition sample_body : RequestCode.body :=
  RequestCode.mk (str "Acme") (str "alice") (str "ALICE@Example.com").

(** An issuance at time 1000 whose insertion and delivery both succeed. *)
Definition sample_issue : issue_env :=
  mkIssueEnv (str "noreply@example.com") 1000 sample_entropy false false.

Definition sample_redeem_body : VerifyCode.body :=
  VerifyCode.mk (str "Alice@Example.com") (str "0ABCFF").

Definition sample_row : row :=
  mkRow 1 (Some "Acme") (Some "alice") (Some "alice@example.com") (Some "0ABCFF") 1000.

(** The table after that one issuance, the same for both servers. *)
Definition sample_world : world := mkWorld (mkDb [sample_row] 1) [].

Definition sample_replays : list redeem_env :=
  [mkRedeemEnv 1000 false; mkRedeemEnv 60000 false; mkRedeemEnv 120999 false].

(** The sample issuance with a delivery that fails. *)
Definition sample_undelivered : issue_env :=
  mkIssueEnv (str "noreply@example.com") 1000 sample_entropy false true.

(** A probe whose first three handshakes fail and whose fourth succeeds. *)
Definition sample_health : health_env :=
  mkHealthEnv false (fun k => Nat.eqb k 3) "2026-01-01T00:00:00.000Z".

(** The sample issuance with an insertion that fails. *)
Definition sample_unstored : issue_env :=
  mkIssueEnv (str "noreply@example.com") 1000 sample_entropy true false.

(** Another entropy source for the sample issuance. *)
Definition other_entropy (k : nat) : byte := x42.

(** ** Reading a code back *)

(** The value of one character of a code, when it is a digit or one of A-F. *)
Definition hex_value (c : ascii) : option N :=
  let n := N_of_ascii c in
  if (48 <=? n)%N && (n <=? 57)%N then Some (n - 48)%N
  else if (65 <=? n)%N && (n <=? 70)%N then Some (n - 55)%N
  else None.

(** The bytes that a string of such characters spells, two characters
    per byte, high nibble first. *)
Fixpoint parse_hex (s : string) : option (list N) :=
  match s with
  | EmptyString => Some []
  | String h (String l s') =>
      match hex_value h, hex_value l, parse_hex s' with
      | Some a, Some b, Some bytes => Some ((16 * a + b)%N :: bytes)
      | _, _, _ => None
      end
  | String _ EmptyString => None
  end.

(** A second issuance for the sample address, a minute later. *)
Definition sample_second_issue : issue_env :=
  mkIssueEnv (str "noreply@example.com") 61000 other_entropy false false.

(** ** Row identifiers *)

(** The ids of [l] increase strictly along the list, starting above [lo]. *)
Fixpoint ids_increase (lo : Z) (l : list row) : Prop :=
  match l with
  | [] => True
  | r :: l' => lo < id r /\ ids_increase (id r) l'
  end.

(** Ids are positive, in increasing order, and none exceeds the sequence. *)
Definition ids_in_order (d : database) : Prop :=
  0 <= sqlite_sequence d /\
  ids_increase 0 (verification_codes d) /\
  Forall (fun r => id r <= sqlite_sequence d) (verification_codes d).

(** * The two routers: [notification.js] and [part_002] *)

(** A JSON value of an answer of the routers. *)
#[local] Unset Elimination Schemes.
Inductive jvalue : Type :=
| JVNull
| JVString (s : string)
| JVNumber (n : Z)
| JVObject (members : list (string * jvalue)).
#[local] Set Elimination Schemes.

Record reply : Type := mkReply {
  reply_status : Z;
  reply_body : jvalue
}.

(** A handler of [part_002] answers, or an exception escapes from it. *)
Inductive answer : Type :=
| Replied (r : reply)
| Escaped (e : exn).

(** [k: v] in an object literal passed to [res.json]: a member whose
    value is [undefined] is left out of the JSON text. *)
Definition member (k : string) (v : value) : list (string * jvalue) :=
  match v with
  | undefined => []
  | null => [(k, JVNull)]
  | str s => [(k, JVString s)]
  end.

(** [v || d]. *)
Definition or_else (v d : value) : value := if truthy v then v else d.

(** [`${n}`] for an integer [n]. *)
Definition Number_toString (n : Z) : string := NilZero.string_of_int (Z.to_int n).

(** What [transporter.sendMail] calls back with: [info], of which the
    handlers read [info.response], or an error, which they pass on to
    [res.json] and which arrives here as the JSON it is written as. *)
Inductive delivery : Type :=
| Delivered (response : value)
| Undelivered (err : jvalue).

(** What [db.run] calls back with: [this.lastID] after a statement that
    completed - the rowid of the row just inserted or, when OR IGNORE
    skipped the row, that of an earlier insertion - or an error. *)
Inductive run_result : Type :=
| Ran (lastID : Z)
| RunFailed (err : jvalue).

Module Notification.

(** The body of [POST /send-notification]. *)
Record request : Type := mk {
  to : value;
  subject : value;
  body : value;
  company_name : value
}.

(** The [mailOptions] of this router: [to] and [subject] are passed on
    as they came. *)
Record message : Type := mkMessage {
  msg_from : string;
  msg_to : value;
  msg_subject : value;
  msg_html : string
}.

Record env : Type := mkEnv {
  GMAIL_USER : value;
  fullYear : Z;
  sendMail : delivery
}.

(** [styledTemplate({ company_name, body })]; [fullYear] is
    [new Date().getFullYear()]. *)
Definition styledTemplate (fullYear : Z) (company_name body : value) : string :=
  String.concat nl [
      "<!DOCTYPE html>";
      "  <html>";
      "  <head>";
      "    <meta charset=" ++ dq ++ "UTF-8" ++ dq ++ ">";
      "    <style>";
      "      body {";
      "        font-family: Arial, sans-serif;";
      "        background: #f9f9f9;";
      "        padding: 40px;";
      "        color: #333;";
      "      }";
      "      .container {";
      "        max-width: 600px;";
      "        margin: auto;";
      "        background: #ffffff;";
      "        padding: 30px;";
      "        border-radius: 8px;";
      "        box-shadow: 0 0 8px rgba(0,0,0,0.1);";
      "      }";
      "      h2 {";
      "        color: #004080;";
      "      }";
      "      p {";
      "        line-height: 1.6;";
      "      }";
      "      .highlight {";
      "        background: #f0f8ff;";
      "        padding: 10px;";
      "        border-left: 4px solid #007acc;";
      "        margin: 20px 0;";
      "      }";
      "      .footer {";
      "        font-size: 12px;";
      "        color: #777;";
      "        margin-top: 40px;";
      "        text-align: center;";
      "      }";
      "    </style>";
      "  </head>";
      "  <body>";
      "    <div class=" ++ dq ++ "container" ++ dq ++ ">";
      "      <h2>Message from " ++ template (or_else company_name (str "Your Company")) ++ "</h2>";
      "      <div class=" ++ dq ++ "highlight" ++ dq ++ ">";
      "        " ++ template body;
      "      </div>";
      "      <div class=" ++ dq ++ "footer" ++ dq ++ ">";
      "        &copy; " ++ Number_toString fullYear ++ " " ++ template (or_else company_name (str "Your Company")) ++ ". All rights reserved.";
      "      </div>";
      "    </div>";
      "  </body>";
      "  </html>" ].

(** [POST /send-notification]. *)
Definition send_notification (e : env) (b : request) (outbox : list message)
  : reply * list message :=
  let to := to b in
  let subject := subject b in
  let body := body b in
  let company_name := company_name b in
  if negb (truthy to) || negb (truthy subject) || negb (truthy body) then
    (mkReply 400 (JVObject
       [("message", JVString "Missing required fields: to, subject, body")]), outbox)
  else
    let html := styledTemplate (fullYear e) company_name body in
    let mailOptions := mkMessage
      (dq ++ template (or_else company_name (str "Notifier")) ++ dq ++
         " <" ++ template (GMAIL_USER e) ++ ">")
      to subject html in
    match sendMail e with
    | Undelivered err =>
      (mkReply 500 (JVObject
         [("message", JVString "Failed to send email"); ("error", err)]),
       (outbox ++ [mailOptions])%list)
    | Delivered response =>
      (mkReply 200 (JVObject
         ([("message", JVString "Notification email sent")] ++
          member "to" to ++ member "info" response)%list),
       (outbox ++ [mailOptions])%list)
    end.

End Notification.

Module Marketing.

(** The table [marketers]: [company] is UNIQUE, and it and [email] are
    NOT NULL. *)
Module Marketers.
Record row : Type := mk {
  id : Z;
  company : string;
  email : string;
  created_at : Z
}.
End Marketers.

(** The table [contacts]: [company] and [email] are NOT NULL. *)
Module Contacts.
Record row : Type := mk {
  id : Z;
  company : string;
  name : sqltext;
  email : string
}.
End Contacts.

(** The [mailOptions] of a broadcast: [to] is the array of recipients. *)
Record broadcast : Type := mkBroadcast {
  msg_from : string;
  msg_to : list string;
  msg_subject : value;
  msg_html : string
}.

(** The two tables in rowid order, and the broadcasts handed to the
    transport so far. *)
Record state : Type := mkState {
  marketers : list Marketers.row;
  contacts : list Contacts.row;
  outbox : list broadcast
}.

Definition empty : state := mkState [] [] [].

(** The body of [POST /marketer/register]. *)
Record register_body : Type := mkRegister {
  reg_email : value;
  reg_company : value
}.

(** The body of [POST /marketer/:company/add-contact]. *)
Record contact_body : Type := mkContact {
  contact_name : value;
  contact_email : value
}.

(** The body of [POST /marketer/:company/send-email]. *)
Record email_body : Type := mkEmail {
  subject : value;
  brand : value;
  headline : value;
  subtext : value;
  message : value;
  cta : value;
  footer : value
}.

(** For one broadcast: the configured sender, the year, the error of
    [db.all] if it fails, and what the transport calls back with. *)
Record env : Type := mkEnv {
  GMAIL_USER : value;
  fullYear : Z;
  all_failed : option jvalue;
  sendMail : delivery
}.

(** [emailTemplate({ brand, headline, subtext, message, cta, footer })]. *)
Definition emailTemplate (fullYear : Z)
    (brand headline subtext message cta footer : value) : string :=
  String.concat nl [
      "<!DOCTYPE html>";
      "  <html lang=" ++ dq ++ "en" ++ dq ++ ">";
      "  <head><meta charset=" ++ dq ++ "UTF-8" ++ dq ++ " /><meta name=" ++ dq ++ "viewport" ++ dq ++ " content=" ++ dq ++ "width=device-width, initial-scale=1.0" ++ dq ++ "/>";
      "  <title>" ++ template headline ++ "</title>";
      "  <style>";
      "    body { margin: 0; font-family: 'Segoe UI', sans-serif; background-color: #00c4a7; color: #fff; text-align: center; }";
      "    .container { max-width: 480px; margin: auto; padding: 20px; }";
      "    .logo svg { width: 50px; height: 50px; }";
      "    h2 { font-size: 1.5rem; font-weight: bold; color: #ff1744; }";
      "    .msg { margin: 1rem 0; font-size: 0.95rem; color: #e0f7fa; }";
      "    .btn { display: inline-block; padding: 12px 30px; background: #ff1744; color: white; text-decoration: none; border-radius: 5px; font-weight: bold; margin: 1.5rem 0; }";
      "    footer { font-size: 0.75rem; color: #e0f2f1; margin-top: 10px; }";
      "  </style>";
      "  </head><body><div class=" ++ dq ++ "container" ++ dq ++ ">";
      "    <h3>" ++ template brand ++ "</h3>";
      "    <h2>" ++ template headline ++ "</h2>";
      "    <p class=" ++ dq ++ "msg" ++ dq ++ ">" ++ template (or_else subtext (str "")) ++ "</p>";
      "    <p class=" ++ dq ++ "msg" ++ dq ++ ">" ++ template message ++ "</p>";
      "    <a href=" ++ dq ++ "#" ++ dq ++ " class=" ++ dq ++ "btn" ++ dq ++ ">" ++ template cta ++ "</a>";
      "    <footer><p>" ++ template (or_else footer (str ("&copy; " ++ Number_toString fullYear ++ " " ++ template brand ++ ". All rights reserved."))) ++ "</p></footer>";
      "  </div></body></html>" ].

(** [INSERT OR IGNORE INTO marketers (email, company, created_at)]: a
    row whose company is already there is skipped without an error. *)
Definition insert_or_ignore (r : Marketers.row) (l : list Marketers.row)
  : list Marketers.row :=
  if existsb (fun x => (Marketers.company x =? Marketers.company r)%string) l
  then l else (l ++ [r])%list.

(** [POST /marketer/register]. *)
Definition register (now : Z) (ran : run_result) (b : register_body) (st : state)
  : answer * state :=
  let email := reg_email b in
  let company := reg_company b in
  if negb (truthy email) || negb (truthy company) then
    (Replied (mkReply 400 (JVObject
       [("message", JVString "Email and company name are required")])), st)
  else
    let createdAt := now in
    match call_toLowerCase email with
    | Throw x => (Escaped x, st)
    | Ok lowered_email =>
      match call_toLowerCase company with
      | Throw x => (Escaped x, st)
      | Ok lowered_company =>
        match ran with
        | RunFailed err =>
          (Replied (mkReply 500 (JVObject
             [("message", JVString "Registration failed"); ("error", err)])), st)
        | Ran lastID =>
          (Replied (mkReply 200 (JVObject
             [("message", JVString "Marketer registered");
              ("marketer_id", JVNumber lastID)])),
           mkState
             (insert_or_ignore
                (Marketers.mk lastID lowered_company lowered_email createdAt)
                (marketers st))
             (contacts st) (outbox st))
        end
      end
    end.

(** [POST /marketer/:company/add-contact]; [param] is
    [req.params.company], always a string. *)
Definition add_contact (ran : run_result) (param : string) (b : contact_body)
    (st : state) : answer * state :=
  let company := toLowerCase param in
  let name := contact_name b in
  let email := contact_email b in
  if negb (truthy email) then
    (Replied (mkReply 400 (JVObject
       [("message", JVString "Customer email is required")])), st)
  else
    match call_toLowerCase email with
    | Throw x => (Escaped x, st)
    | Ok lowered_email =>
      match ran with
      | RunFailed err =>
        (Replied (mkReply 500 (JVObject
           [("message", JVString "Failed to add contact"); ("error", err)])), st)
      | Ran lastID =>
        (Replied (mkReply 200 (JVObject
           [("message", JVString "Contact added");
            ("contact_id", JVNumber lastID)])),
         mkState (marketers st)
           (contacts st ++
              [Contacts.mk lastID company (bind (or_else name (str ""))) lowered_email])%list
           (outbox st))
      end
    end.

(** [SELECT email FROM contacts WHERE company = ?] through [db.all],
    mapped to the addresses. *)
Definition recipients_of (company : string) (st : state) : list string :=
  map Contacts.email
    (filter (fun r => (Contacts.company r =? company)%string) (contacts st)).

(** [POST /marketer/:company/send-email]. *)
Definition send_email (e : env) (param : string) (b : email_body) (st : state)
  : answer * state :=
  let company := toLowerCase param in
  if negb (truthy (subject b)) || negb (truthy (brand b)) ||
     negb (truthy (headline b)) || negb (truthy (message b)) ||
     negb (truthy (cta b)) then
    (Replied (mkReply 400 (JVObject
       [("message",
         JVString "Missing required fields: subject, brand, headline, message, or cta")])),
     st)
  else
    match all_failed e with
    | Some err =>
      (Replied (mkReply 500 (JVObject
         [("message", JVString "Failed to fetch contacts"); ("error", err)])), st)
    | None =>
      let recipients := recipients_of company st in
      if (List.length recipients =? 0)%nat then
        (Replied (mkReply 404 (JVObject
           [("message", JVString "No contacts found for this company")])), st)
      else
        let html :=
          emailTemplate (fullYear e) (brand b) (headline b) (subtext b)
                        (message b) (cta b) (footer b) in
        let mailOptions := mkBroadcast
          (dq ++ template (brand b) ++ dq ++ " <" ++ template (GMAIL_USER e) ++ ">")
          recipients (subject b) html in
        let st1 := mkState (marketers st) (contacts st) (outbox st ++ [mailOptions])%list in
        match sendMail e with
        | Undelivered err =>
          (Replied (mkReply 500 (JVObject
             [("message", JVString "Failed to send email"); ("error", err)])), st1)
        | Delivered response =>
          (Replied (mkReply 200 (JVObject
             ([("message", JVString "Email sent");
               ("recipients", JVNumber (Z.of_nat (List.length recipients)))] ++
              member "info" response)%list)), st1)
        end
    end.

(** What can happen to the router; a request is one transition. *)
Inductive event : Type :=
| Register (now : Z) (ran : run_result) (b : register_body)
| AddContact (ran : run_result) (param : string) (b : contact_body)
| SendEmail (e : env) (param : string) (b : email_body).

Definition step (ev : event) (st : state) : state :=
  match ev with
  | Register now ran b => snd (register now ran b st)
  | AddContact ran param b => snd (add_contact ran param b st)
  | SendEmail e param b => snd (send_email e param b st)
  end.

Definition run (evs : list event) (st : state) : state :=
  fold_left (fun st' ev => step ev st') evs st.

End Marketing.

(** A notification request whose three required members are non-empty
    strings. *)
Definition notification_complete (b : Notification.request) : bool :=
  truthy (Notification.to b) && truthy (Notification.subject b) &&
  truthy (Notification.body b).

(** A broadcast request whose five required members are non-empty strings. *)
Definition broadcast_complete (b : Marketing.email_body) : bool :=
  truthy (Marketing.subject b) && truthy (Marketing.brand b) &&
  truthy (Marketing.headline b) && truthy (Marketing.message b) &&
  truthy (Marketing.cta b).

(** A string that lower-casing leaves as it is. *)
Definition lowercase (s : string) : Prop := toLowerCase s = s.

(** Sample requests to the routers. *)
Definition sample_notification : Notification.request :=
  Notification.mk (str "bob@example.com") (str "Hello") (str "<i>Welcome</i>") undefined.

Definition sample_notify_env : Notification.env :=
  Notification.mkEnv (str "noreply@example.com") 2026 (Delivered (str "250 OK")).

Definition sample_contact : Marketing.contact_body :=
  Marketing.mkContact undefined (str "Bob@Example.com").

Definition sample_broadcast : Marketing.email_body :=
  Marketing.mkEmail (str "News") (str "Acme") (str "Hello") undefined
                    (str "Welcome") (str "Open") undefined.

Definition sample_broadcast_env : Marketing.env :=
  Marketing.mkEnv (str "noreply@example.com") 2026 None (Delivered (str "250 OK")).


(** ** Strings and the code generator *)

Lemma toLowerCase_nonempty (s : string) :
  (s =? "")%string = false -> (toLowerCase s =? "")%string = false.
Proof. destruct s; simpl; auto. Qed.

Lemma truthy_str (v : value) :
  truthy v = true -> exists s, v = str s /\ (s =? "")%string = false.
Proof.
  destruct v as [| |s]; simpl; try discriminate.
  intros H. exists s. split; [reflexivity|].
  now apply negb_true_iff.
Qed.

Lemma hex_high_upper (b : byte) :
  is_upper_hex (upper_char (hex_digit (Byte.to_N b / 16))) = true.
Proof. destruct b; reflexivity. Qed.

Lemma hex_low_upper (b : byte) :
  is_upper_hex (upper_char (hex_digit (Byte.to_N b mod 16))) = true.
Proof. destruct b; reflexivity. Qed.

Lemma generateCode_length (f : nat -> byte) :
  String.length (generateCode f) = 6%nat.
Proof. reflexivity. Qed.

Lemma generateCode_alphabet (f : nat -> byte) :
  string_forallb is_upper_hex (generateCode f) = true.
Proof.
  unfold generateCode, randomBytes, toUpperCase. cbn [seq map toString_hex map_string string_forallb].
  now rewrite !hex_high_upper, !hex_low_upper.
Qed.

Lemma generateCode_is_code (f : nat -> byte) : is_code (generateCode f) = true.
Proof.
  unfold is_code. rewrite generateCode_length, generateCode_alphabet. reflexivity.
Qed.

(** ** The table *)

Lemma sql_eq_spec (col : sqltext) (s : string) :
  sql_eq col (Some s) = true <-> col = Some s.
Proof.
  destruct col as [a|]; simpl.
  - rewrite String.eqb_eq. split; congruence.
  - split; discriminate.
Qed.

Lemma sql_eq_null (col : sqltext) : sql_eq col None = false.
Proof. now destruct col. Qed.

Lemma matches_spec (e c : string) (notBefore : Z) (r : row) :
  matches (Some e) (Some c) notBefore r = true <->
  email r = Some e /\ code r = Some c /\ created_at r > notBefore.
Proof.
  unfold matches. rewrite !andb_true_iff, !sql_eq_spec, Z.gtb_gt. tauto.
Qed.

Lemma select_code_some (e k : sqltext) (notBefore : Z) (d : database) :
  (exists r, select_code e k notBefore d = Some r) <->
  (exists r, In r (verification_codes d) /\ matches e k notBefore r = true).
Proof.
  unfold select_code. split.
  - intros [r H]. exists r. now apply find_some in H.
  - intros [r [Hin Hm]].
    destruct (find (matches e k notBefore) (verification_codes d)) as [r'|] eqn:E.
    + now exists r'.
    + apply (find_none _ _ E) in Hin. congruence.
Qed.

Lemma delete_older_In (cutoff : Z) (d : database) (r : row) :
  In r (verification_codes (delete_older cutoff d)) <->
  In r (verification_codes d) /\ created_at r >= cutoff.
Proof.
  unfold delete_older; simpl. rewrite filter_In, negb_true_iff, Z.ltb_ge.
  split; intros [Hin Hc]; (split; [exact Hin|lia]).
Qed.

Lemma filter_twice {A : Type} (p : A -> bool) (l : list A) :
  filter p (filter p l) = filter p l.
Proof.
  induction l as [|x l IH]; simpl; [reflexivity|].
  destruct (p x) eqn:E; simpl; [rewrite E, IH|]; auto.
Qed.

Lemma delete_older_idempotent (cutoff : Z) (d : database) :
  delete_older cutoff (delete_older cutoff d) = delete_older cutoff d.
Proof. unfold delete_older; simpl. now rewrite filter_twice. Qed.

Lemma well_formed_insert (c u : sqltext) (e k : string) (t : Z) (d : database) :
  (e =? "")%string = false -> is_code k = true ->
  well_formed d = true ->
  well_formed (insert_code c u (Some e) (Some k) t d) = true.
Proof.
  unfold well_formed, insert_code; simpl. intros He Hk Hd.
  rewrite forallb_app, Hd. simpl. unfold issued; simpl. now rewrite He, Hk.
Qed.

Lemma well_formed_delete (cutoff : Z) (d : database) :
  well_formed d = true -> well_formed (delete_older cutoff d) = true.
Proof.
  unfold well_formed, delete_older; simpl. rewrite !forallb_forall.
  intros H r Hin. apply filter_In in Hin. now apply H.
Qed.

Lemma well_formed_db_run (failed : bool) (stmt : database -> database) (d : database) :
  well_formed d = true -> well_formed (stmt d) = true ->
  well_formed (db_run failed stmt d) = true.
Proof. now destruct failed. Qed.

Lemma well_formed_row (d : database) (r : row) :
  well_formed d = true -> In r (verification_codes d) ->
  exists e c, email r = Some e /\ code r = Some c /\
              (e =? "")%string = false /\ is_code c = true.
Proof.
  unfold well_formed. rewrite forallb_forall. intros H Hin.
  specialize (H r Hin). unfold issued in H.
  destruct (email r) as [e|]; [|discriminate].
  destruct (code r) as [c|]; [|discriminate].
  apply andb_true_iff in H. destruct H as [He Hc].
  exists e, c. rewrite negb_true_iff in He. auto.
Qed.

Lemma is_code_nonempty (c : string) : is_code c = true -> (c =? "")%string = false.
Proof. destruct c; [discriminate|reflexivity]. Qed.

(** ** Redemption *)

Lemma Valid_not_Invalid (o : outcome) : Valid o -> Invalid o -> False.
Proof. intros [m1 H1] [m2 H2]. rewrite H1 in H2. discriminate. Qed.

Lemma live_match_select (ttl : Z) (e c : string) (now : Z) (w : world) :
  live_match ttl e c now w <->
  exists r, select_code (Some (toLowerCase e)) (Some c) (now - ttl) (db w) = Some r.
Proof.
  rewrite select_code_some. unfold live_match.
  split; intros [r [Hin H]]; exists r; (split; [exact Hin|]);
    now apply matches_spec.
Qed.

Lemma p000_verify_code_frame (env : redeem_env) (b : VerifyCode.body) (w : world) :
  snd (Part000.verify_code env b w) = w.
Proof.
  unfold Part000.verify_code.
  destruct (call_toLowerCase (VerifyCode.email b)); [|reflexivity].
  destruct (select_failed env); [reflexivity|].
  now destruct (select_code _ _ _ _).
Qed.

Lemma p001_verify_code_frame (env : redeem_env) (b : VerifyCode.body) (w : world) :
  snd (Part001.verify_code env b w) = w.
Proof.
  unfold Part001.verify_code.
  destruct (negb (truthy (VerifyCode.email b)) || negb (truthy (VerifyCode.code b)));
    [reflexivity|].
  destruct (call_toLowerCase (VerifyCode.email b)); [|reflexivity].
  destruct (select_failed env); [reflexivity|].
  now destruct (select_code _ _ _ _).
Qed.

(** The answer of [part_000] to a body with a string [email], once the
    SELECT has completed: decided by the lookup alone. *)
Lemma p000_verify_code_verdict (env : redeem_env) (e : string) (k : value) (w : world) :
  select_failed env = false ->
  fst (Part000.verify_code env (VerifyCode.mk (str e) k) w) =
  match select_code (Some (toLowerCase e)) (bind k)
                    (redeem_now env - Part000.TTL) (db w) with
  | Some _ => Responded (res_json (JObject
      [("valid", JBool true); ("message", JString "Code is valid.")]))
  | None => Responded (mkResponse 400 (JObject
      [("valid", JBool false); ("message", JString "Invalid or expired code.")]))
  end.
Proof.
  intros H. unfold Part000.verify_code, Part000.TTL; simpl. rewrite H.
  now destruct (select_code _ _ _ _).
Qed.

(** The same for [part_001], for a body that passes the guard. *)
Lemma p001_verify_code_verdict (env : redeem_env) (e c : string) (w : world) :
  select_failed env = false ->
  (e =? "")%string = false -> (c =? "")%string = false ->
  fst (Part001.verify_code env (VerifyCode.mk (str e) (str c)) w) =
  match select_code (Some (toLowerCase e)) (Some c)
                    (redeem_now env - Part001.TTL) (db w) with
  | Some _ => Responded (res_json (JObject
      [("valid", JBool true); ("message", JString "✅ Code is valid!")]))
  | None => Responded (mkResponse 400 (JObject
      [("valid", JBool false);
       ("message", JString "❌ Invalid or expired code.")]))
  end.
Proof.
  intros H He Hc. unfold Part001.verify_code, Part001.TTL; simpl.
  rewrite He, Hc, H; simpl.
  now destruct (select_code _ _ _ _).
Qed.

(** A body that the guard of [part_001] turns away. *)
Lemma p001_verify_code_guard (env : redeem_env) (b : VerifyCode.body) (w : world) :
  truthy (VerifyCode.email b) = false \/ truthy (VerifyCode.code b) = false ->
  Part001.verify_code env b w =
  (Responded (mkResponse 400 (JObject
     [("valid", JBool false);
      ("message", JString "Email and code are required.")])), w).
Proof.
  intros H. unfold Part001.verify_code.
  destruct H as [H|H]; rewrite H; simpl; [reflexivity|].
  now rewrite orb_true_r.
Qed.

(** A lookup that fails is answered 500 by both servers, whatever the
    table holds. *)
Lemma verify_code_lookup_failure (env : redeem_env) (e c : string) (w : world) :
  select_failed env = true ->
  (e =? "")%string = false -> (c =? "")%string = false ->
  Part000.verify_code env (VerifyCode.mk (str e) (str c)) w =
    (Responded (mkResponse 500 (JObject
       [("valid", JBool false); ("message", JString "Database error.")])), w) /\
  Part001.verify_code env (VerifyCode.mk (str e) (str c)) w =
    (Responded (mkResponse 500 (JObject
       [("valid", JBool false); ("message", JString "Database error.")])), w).
Proof.
  intros H He Hc. unfold Part000.verify_code, Part001.verify_code; simpl.
  now rewrite H, He, Hc.
Qed.

Lemma p000_redeem_spec (env : redeem_env) (e c : string) (w : world) :
  select_failed env = false ->
  let o := fst (Part000.verify_code env (VerifyCode.mk (str e) (str c)) w) in
  (Valid o <-> live_match Part000.TTL e c (redeem_now env) w) /\
  (~ live_match Part000.TTL e c (redeem_now env) w -> Invalid o).
Proof.
  intros H o. subst o. rewrite (p000_verify_code_verdict _ _ _ _ H).
  rewrite live_match_select. simpl bind.
  destruct (select_code _ _ _ _) as [r|].
  - split; [split|].
    + intros _. now exists r.
    + intros _. now eexists.
    + intros Hn. exfalso. apply Hn. now exists r.
  - split; [split|].
    + intros [m Hm]. discriminate.
    + intros [r Hr]. discriminate.
    + intros _. now eexists.
Qed.

Lemma p001_redeem_spec (env : redeem_env) (e c : string) (w : world) :
  select_failed env = false ->
  well_formed (db w) = true ->
  let o := fst (Part001.verify_code env (VerifyCode.mk (str e) (str c)) w) in
  (Valid o <-> live_match Part001.TTL e c (redeem_now env) w) /\
  (~ live_match Part001.TTL e c (redeem_now env) w -> Invalid o).
Proof.
  intros H Hwf o. subst o.
  destruct (e =? "")%string eqn:He; [|destruct (c =? "")%string eqn:Hc].
  - (* empty email: turned away, and no well-formed row carries it *)
    rewrite p001_verify_code_guard by (left; simpl; now rewrite He).
    simpl fst. split; [split|].
    + intros [m Hm]. discriminate.
    + intros [r [Hin [Hr _]]]. exfalso.
      destruct (well_formed_row _ _ Hwf Hin) as [e' [c' [He' [_ [Hne _]]]]].
      rewrite Hr in He'. injection He' as <-.
      apply String.eqb_eq in He. subst e. discriminate.
    + intros _. now eexists.
  - rewrite p001_verify_code_guard by (right; simpl; now rewrite Hc).
    simpl fst. split; [split|].
    + intros [m Hm]. discriminate.
    + intros [r [Hin [_ [Hr _]]]]. exfalso.
      destruct (well_formed_row _ _ Hwf Hin) as [e' [c' [_ [Hc' [_ Hcode]]]]].
      rewrite Hr in Hc'. injection Hc' as <-.
      apply is_code_nonempty in Hcode. congruence.
    + intros _. now eexists.
  - rewrite (p001_verify_code_verdict _ _ _ _ H He Hc).
    rewrite live_match_select.
    destruct (select_code _ _ _ _) as [r|].
    + split; [split|].
      * intros _. now exists r.
      * intros _. now eexists.
      * intros Hn. exfalso. apply Hn. now exists r.
    + split; [split|].
      * intros [m Hm]. discriminate.
      * intros [r Hr]. discriminate.
      * intros _. now eexists.
Qed.

(** ** Issuance *)

Lemma accepted_strings (b : RequestCode.body) :
  accepted b = true ->
  exists co u e, b = RequestCode.mk (str co) (str u) (str e) /\
                 (co =? "")%string = false /\ (u =? "")%string = false /\
                 (e =? "")%string = false.
Proof.
  unfold accepted. destruct b as [co u e]; simpl.
  rewrite !andb_true_iff. intros [[H1 H2] H3].
  apply truthy_str in H1, H2, H3.
  destruct H1 as [co' [-> H1]], H2 as [u' [-> H2]], H3 as [e' [-> H3]].
  now exists co', u', e'.
Qed.

Lemma guard_of_accepted (b : RequestCode.body) :
  negb (truthy (RequestCode.company b)) || negb (truthy (RequestCode.username b))
    || negb (truthy (RequestCode.email b)) = negb (accepted b).
Proof.
  unfold accepted.
  now destruct (truthy (RequestCode.company b)), (truthy (RequestCode.username b)),
    (truthy (RequestCode.email b)).
Qed.

Lemma p000_request_code_guard (env : issue_env) (b : RequestCode.body) (w : world) :
  accepted b = false ->
  Part000.request_code env b w =
  (Responded (mkResponse 400 (JObject
     [("message", JString "Company, username, and email are required.")])), w).
Proof.
  intros H. unfold Part000.request_code. now rewrite guard_of_accepted, H.
Qed.

Lemma p001_request_code_guard (env : issue_env) (b : RequestCode.body) (w : world) :
  accepted b = false ->
  Part001.request_code env b w =
  (Responded (mkResponse 400 (JObject
     [("message", JString "Company, username, and email are required.")])), w).
Proof.
  intros H. unfold Part001.request_code. now rewrite guard_of_accepted, H.
Qed.

Section Accepted.
Variables (env : issue_env) (co u e : string) (w : world).
Hypothesis Hco : (co =? "")%string = false.
Hypothesis Hu : (u =? "")%string = false.
Hypothesis He : (e =? "")%string = false.

Let b := RequestCode.mk (str co) (str u) (str e).

Lemma accepted_mk : accepted b = true.
Proof. unfold accepted, b; simpl. now rewrite Hco, Hu, He. Qed.

(** [part_000]: the answer follows the delivery alone. *)
Lemma p000_issue_response :
  fst (Part000.request_code env b w) =
  Responded (if sendMail_failed env
             then mkResponse 500 (JObject [("message", JString "Email failed to send.")])
             else res_json (JObject [("message", JString "Verification code sent.")])).
Proof.
  unfold Part000.request_code. rewrite guard_of_accepted, accepted_mk.
  cbn [negb b RequestCode.email call_toLowerCase].
  now destruct (sendMail_failed env).
Qed.

Lemma p000_issue_db :
  db (snd (Part000.request_code env b w)) =
  if insert_failed env then db w
  else mkDb (verification_codes (db w) ++ [issued_row env co u e (db w)])
            (sqlite_sequence (db w) + 1).
Proof.
  unfold Part000.request_code. rewrite guard_of_accepted, accepted_mk.
  cbn [negb b RequestCode.email RequestCode.company RequestCode.username
       call_toLowerCase bind].
  destruct (sendMail_failed env); cbn [snd db db_run];
    now destruct (insert_failed env).
Qed.

(** [part_001]: the insertion is tested first, then the delivery. *)
Lemma p001_issue_response :
  fst (Part001.request_code env b w) =
  Responded (if insert_failed env
             then mkResponse 500 (JObject [("message", JString "Failed to store code.")])
             else if sendMail_failed env
             then mkResponse 500 (JObject [("message", JString "Email failed to send.")])
             else res_json (JObject [("message", JString "Verification code sent.")])).
Proof.
  unfold Part001.request_code. rewrite guard_of_accepted, accepted_mk.
  cbn [negb b RequestCode.email call_toLowerCase].
  destruct (insert_failed env); [reflexivity|].
  now destruct (sendMail_failed env).
Qed.

Lemma p001_issue_db :
  db (snd (Part001.request_code env b w)) =
  if insert_failed env then db w
  else mkDb (verification_codes (db w) ++ [issued_row env co u e (db w)])
            (sqlite_sequence (db w) + 1).
Proof.
  unfold Part001.request_code. rewrite guard_of_accepted, accepted_mk.
  cbn [negb b RequestCode.email RequestCode.company RequestCode.username
       call_toLowerCase bind].
  destruct (insert_failed env); [reflexivity|].
  now destruct (sendMail_failed env).
Qed.

(** In [part_001] a failed insertion hands nothing to the transport. *)
Lemma p001_issue_sent_on_insert_failure :
  insert_failed env = true ->
  snd (Part001.request_code env b w) = w.
Proof.
  intros H. unfold Part001.request_code. rewrite guard_of_accepted, accepted_mk.
  cbn [negb b RequestCode.email call_toLowerCase]. rewrite H.
  cbn [snd db_run]. now destruct w.
Qed.
End Accepted.

(** ** Invariants of the table *)

Lemma issued_row_appended (env : issue_env) (co u e : string) (d : database) :
  mkDb (verification_codes d ++ [issued_row env co u e d]) (sqlite_sequence d + 1) =
  insert_code (Some co) (Some u) (Some (toLowerCase e))
              (Some (generateCode (entropy env))) (issue_now env) d.
Proof. reflexivity. Qed.

Ltac issue_cases b A :=
  destruct (accepted b) eqn:A;
  [ let co := fresh "co" in let u := fresh "u" in let e := fresh "e" in
    let Hb := fresh "Hb" in let Hco := fresh "Hco" in
    let Hu := fresh "Hu" in let He := fresh "He" in
    destruct (accepted_strings b A) as [co [u [e [Hb [Hco [Hu He]]]]]]; subst b
  | ].

Lemma p000_step_well_formed (ev : event) (w : world) :
  well_formed (db w) = true -> well_formed (db (Part000.step ev w)) = true.
Proof.
  intros Hwf. destruct ev as [env b|env b|now f|env]; simpl.
  - issue_cases b A.
    + rewrite p000_issue_db by assumption.
      destruct (insert_failed env); [assumption|].
      rewrite issued_row_appended.
      apply well_formed_insert; auto using toLowerCase_nonempty, generateCode_is_code.
    + now rewrite p000_request_code_guard.
  - now rewrite p000_verify_code_frame.
  - apply well_formed_db_run; auto using well_formed_delete.
  - assumption.
Qed.

Lemma p001_step_well_formed (ev : event) (w : world) :
  well_formed (db w) = true -> well_formed (db (Part001.step ev w)) = true.
Proof.
  intros Hwf. destruct ev as [env b|env b|now f|env]; simpl.
  - issue_cases b A.
    + rewrite p001_issue_db by assumption.
      destruct (insert_failed env); [assumption|].
      rewrite issued_row_appended.
      apply well_formed_insert; auto using toLowerCase_nonempty, generateCode_is_code.
    + now rewrite p001_request_code_guard.
  - now rewrite p001_verify_code_frame.
  - apply well_formed_db_run; auto using well_formed_delete.
  - assumption.
Qed.

(** Every table that the server can reach from the empty one holds only
    rows as an issuance writes them. *)
Lemma p000_run_well_formed (evs : list event) (w : world) :
  well_formed (db w) = true -> well_formed (db (Part000.run evs w)) = true.
Proof.
  revert w. induction evs as [|ev evs IH]; intros w Hwf; simpl; [assumption|].
  apply IH. now apply p000_step_well_formed.
Qed.

Lemma p001_run_well_formed (evs : list event) (w : world) :
  well_formed (db w) = true -> well_formed (db (Part001.run evs w)) = true.
Proof.
  revert w. induction evs as [|ev evs IH]; intros w Hwf; simpl; [assumption|].
  apply IH. now apply p001_step_well_formed.
Qed.

(** In particular every table reached from the empty one. *)
Lemma reachable_well_formed (evs : list event) :
  well_formed (db (Part000.run evs initial)) = true /\
  well_formed (db (Part001.run evs initial)) = true.
Proof.
  split; [apply p000_run_well_formed|apply p001_run_well_formed]; reflexivity.
Qed.

(** A row stays in the table across any event that is not a sweep past
    its validity window. *)
Lemma p000_step_keeps (r : row) (t : Z) (ev : event) (w : world) :
  In r (verification_codes (db w)) ->
  created_at r > t - Part000.TTL ->
  match ev with Sweep now _ => now <= t | _ => True end ->
  In r (verification_codes (db (Part000.step ev w))).
Proof.
  intros Hin Hlive Hev. destruct ev as [env b|env b|now f|env]; simpl.
  - issue_cases b A.
    + rewrite p000_issue_db by assumption.
      destruct (insert_failed env); [assumption|].
      simpl. apply in_or_app. now left.
    + now rewrite p000_request_code_guard.
  - now rewrite p000_verify_code_frame.
  - destruct f; simpl; [assumption|].
    apply delete_older_In. split; [assumption|].
    unfold Part000.TTL in Hlive. lia.
  - assumption.
Qed.

Lemma p001_step_keeps (r : row) (t : Z) (ev : event) (w : world) :
  In r (verification_codes (db w)) ->
  created_at r > t - Part001.TTL ->
  match ev with Sweep now _ => now <= t | _ => True end ->
  In r (verification_codes (db (Part001.step ev w))).
Proof.
  intros Hin Hlive Hev. destruct ev as [env b|env b|now f|env]; simpl.
  - issue_cases b A.
    + rewrite p001_issue_db by assumption.
      destruct (insert_failed env); [assumption|].
      simpl. apply in_or_app. now left.
    + now rewrite p001_request_code_guard.
  - now rewrite p001_verify_code_frame.
  - destruct f; simpl; [assumption|].
    apply delete_older_In. split; [assumption|].
    unfold Part001.TTL in Hlive. lia.
  - assumption.
Qed.

Lemma p000_run_keeps (r : row) (t : Z) (evs : list event) (w : world) :
  In r (verification_codes (db w)) ->
  created_at r > t - Part000.TTL ->
  sweeps_by t evs ->
  In r (verification_codes (db (Part000.run evs w))).
Proof.
  intros Hin Hlive Hs. revert w Hin.
  induction Hs as [|ev evs Hev _ IH]; intros w Hin; simpl; [assumption|].
  apply IH. now apply p000_step_keeps with (t := t).
Qed.

Lemma p001_run_keeps (r : row) (t : Z) (evs : list event) (w : world) :
  In r (verification_codes (db w)) ->
  created_at r > t - Part001.TTL ->
  sweeps_by t evs ->
  In r (verification_codes (db (Part001.run evs w))).
Proof.
  intros Hin Hlive Hs. revert w Hin.
  induction Hs as [|ev evs Hev _ IH]; intros w Hin; simpl; [assumption|].
  apply IH. now apply p001_step_keeps with (t := t).
Qed.

(** ** The health probe *)

(** The recursion of [attempt] as the source writes it. *)
Lemma attempt_step (verify_ok : nat -> bool) (delay n : Z) (k : nat) :
  Part000.attempt verify_ok delay n k =
  if verify_ok k then ("ok", [Verify true])
  else if n <=? 0 then ("error", [Verify false])
  else let r := Part000.attempt verify_ok delay (n - 1) (S k) in
       (fst r, Verify false :: SetTimeout delay :: snd r).
Proof.
  rewrite Part000.attempt_unfold_eq. unfold Part000.attempt_unfold at 1.
  destruct (verify_ok k); simpl; [reflexivity|].
  destruct (Z_le_gt_dec n 0) as [Hle|Hgt]; simpl.
  - apply Z.leb_le in Hle. now rewrite Hle.
  - assert (H : (n <=? 0) = false) by (apply Z.leb_gt; lia). now rewrite H.
Qed.

Lemma handshakes_bound (verify_ok : nat -> bool) (k budget : nat) :
  (handshakes verify_ok k budget <= budget)%nat.
Proof.
  revert k. induction budget as [|m IH]; intros k; simpl; [lia|].
  destruct (verify_ok k); [lia|]. specialize (IH (S k)). lia.
Qed.

Lemma attempt_spec (verify_ok : nat -> bool) (delay : Z) (m : nat) :
  forall (n : Z) (k : nat), n = Z.of_nat m ->
  Part000.attempt verify_ok delay n k =
  (if existsb verify_ok (seq k (S m)) then "ok" else "error",
   intersperse (SetTimeout delay)
     (map (fun i => Verify (verify_ok i)) (seq k (handshakes verify_ok k (S m))))).
Proof.
  induction m as [|m IH]; intros n k Hn; rewrite attempt_step.
  - subst n. simpl. destruct (verify_ok k) eqn:E; simpl; now rewrite ?E.
  - assert (H : (n <=? 0) = false) by (apply Z.leb_gt; lia). rewrite H.
    destruct (verify_ok k) eqn:E.
    + cbn [existsb seq handshakes]. rewrite E. simpl. now rewrite E.
    + cbv zeta. rewrite (IH (n - 1) (S k)) by lia.
      cbn [fst snd]. f_equal.
      * change (seq k (S (S m))) with (k :: seq (S k) (S m)).
        cbn [existsb]. now rewrite E.
      * cbn [handshakes]. rewrite E.
        change (handshakes verify_ok (S k) (S m))
          with (if verify_ok (S k) then 1%nat
                else S (handshakes verify_ok (S (S k)) m)).
        destruct (verify_ok (S k)) eqn:E1; cbn [seq map intersperse]; now rewrite E.
Qed.

Lemma p000_health_eq (env : health_env) (w : world) :
  let db_ok := negb (ping_failed env) in
  let smtp_ok := existsb (verify_ok env) (seq 0 4) in
  Part000.health env w =
  (mkResponse (if db_ok && smtp_ok then 200 else 500)
     (report (mark (db_ok && smtp_ok)) (mark db_ok) (mark smtp_ok) (timestamp env)),
   intersperse (SetTimeout 1000)
     (map (fun i => Verify (verify_ok env i))
          (seq 0 (handshakes (verify_ok env) 0 4)))).
Proof.
  intros db_ok smtp_ok. subst db_ok smtp_ok.
  unfold Part000.health, Part000.verifySMTPWithRetry.
  rewrite (attempt_spec (verify_ok env) 1000 3 3 0 eq_refl).
  now destruct (ping_failed env), (existsb (verify_ok env) (seq 0 4)).
Qed.

Lemma p001_health_eq (env : health_env) (w : world) :
  let db_ok := negb (ping_failed env) in
  let smtp_ok := verify_ok env 0%nat in
  Part001.health env w =
  (mkResponse (if db_ok && smtp_ok then 200 else 500)
     (report (mark (db_ok && smtp_ok)) (mark db_ok) (mark smtp_ok) (timestamp env)),
   [Verify smtp_ok]).
Proof.
  intros db_ok smtp_ok. subst db_ok smtp_ok. unfold Part001.health.
  now destruct (ping_failed env), (verify_ok env 0%nat).
Qed.

Lemma within_budget (f : nat -> bool) (n : nat) :
  existsb f (seq 0 n) = true <-> exists k, (k < n)%nat /\ f k = true.
Proof.
  rewrite existsb_exists. split; intros [k [Hk Hf]]; exists k; split; auto.
  - apply in_seq in Hk. lia.
  - apply in_seq. lia.
Qed.

(** The handshakes stop at the first success: every one before the last
    has failed. *)
Lemma handshakes_short_circuit (f : nat -> bool) (budget k i : nat) :
  (k <= i)%nat -> (S i < k + handshakes f k budget)%nat -> f i = false.
Proof.
  revert k. induction budget as [|m IH]; intros k Hki Hlt; simpl in Hlt; [lia|].
  destruct (f k) eqn:E; [lia|].
  destruct (Nat.eq_dec i k) as [->|Hne]; [assumption|].
  apply (IH (S k)); lia.
Qed.

(** A success within the budget is where the handshakes stop. *)
Lemma handshakes_stop_at_success (f : nat -> bool) (budget k : nat) :
  existsb f (seq k budget) = true ->
  f (k + handshakes f k budget - 1)%nat = true.
Proof.
  revert k. induction budget as [|m IH]; intros k H; simpl in *; [discriminate|].
  destruct (f k) eqn:E.
  - replace (k + 1 - 1)%nat with k by lia. assumption.
  - simpl in H. specialize (IH (S k) H).
    replace (k + S (handshakes f (S k) m) - 1)%nat
      with (S k + handshakes f (S k) m - 1)%nat by lia.
    assumption.
Qed.

(** ** The outgoing mail *)

Lemma append_assoc (a b c : string) : (a ++ b) ++ c = a ++ (b ++ c).
Proof. induction a as [|x a IH]; simpl; [reflexivity|now rewrite IH]. Qed.

Lemma append_nil_r (a : string) : a ++ "" = a.
Proof. induction a as [|x a IH]; simpl; [reflexivity|now rewrite IH]. Qed.

Lemma occurs_refl (x : string) : occurs x x.
Proof. exists "", "". simpl. now rewrite append_nil_r. Qed.

Lemma occurs_app_l (x s t : string) : occurs x s -> occurs x (s ++ t).
Proof.
  intros [pre [post ->]]. exists pre, (post ++ t). now rewrite !append_assoc.
Qed.

Lemma occurs_app_r (x s t : string) : occurs x t -> occurs x (s ++ t).
Proof.
  intros [pre [post ->]]. exists (s ++ pre), post. now rewrite !append_assoc.
Qed.

Ltac find_occurrence :=
  first [ apply occurs_refl
        | apply occurs_app_l; find_occurrence
        | apply occurs_app_r; find_occurrence ].

Lemma p000_issue_mail (env : issue_env) (co u e : string) (w : world) :
  (co =? "")%string = false -> (u =? "")%string = false ->
  (e =? "")%string = false ->
  exists m,
    sent (snd (Part000.request_code env
                 (RequestCode.mk (str co) (str u) (str e)) w)) = (sent w ++ [m])%list /\
    to m = toLowerCase e /\
    occurs (generateCode (entropy env)) (html m).
Proof.
  intros Hco Hu He. unfold Part000.request_code.
  rewrite guard_of_accepted, (accepted_mk co u e Hco Hu He).
  cbn [negb RequestCode.email RequestCode.company RequestCode.username
       call_toLowerCase bind template].
  destruct (sendMail_failed env); cbn [snd sent]; eexists;
    (split; [reflexivity|split; [reflexivity|]]);
    cbn [html String.concat]; find_occurrence.
Qed.

Lemma p001_issue_mail (env : issue_env) (co u e : string) (w : world) :
  (co =? "")%string = false -> (u =? "")%string = false ->
  (e =? "")%string = false ->
  insert_failed env = false ->
  exists m,
    sent (snd (Part001.request_code env
                 (RequestCode.mk (str co) (str u) (str e)) w)) = (sent w ++ [m])%list /\
    to m = toLowerCase e /\
    occurs (codeDigits (generateCode (entropy env))) (html m).
Proof.
  intros Hco Hu He Hins. unfold Part001.request_code.
  rewrite guard_of_accepted, (accepted_mk co u e Hco Hu He).
  cbn [negb RequestCode.email RequestCode.company RequestCode.username
       call_toLowerCase bind template].
  rewrite Hins.
  destruct (sendMail_failed env); cbn [snd sent]; eexists;
    (split; [reflexivity|split; [reflexivity|]]);
    cbn [html String.concat]; fold (codeDigits (generateCode (entropy env)));
    find_occurrence.
Qed.

Lemma lower_char_not_upper (c : ascii) : is_upper (lower_char c) = false.
Proof. destruct c as [[] [] [] [] [] [] [] []]; reflexivity. Qed.

(** The normalised address has no capital letter left. *)
Lemma toLowerCase_no_upper (s : string) :
  string_forallb (fun c => negb (is_upper c)) (toLowerCase s) = true.
Proof.
  unfold toLowerCase. induction s as [|c s IH]; simpl; [reflexivity|].
  now rewrite lower_char_not_upper, IH.
Qed.

(** ** Redemption of a stored record *)

Lemma live_match_of_row (ttl : Z) (r : row) (e c : string) (now : Z) (w : world) :
  In r (verification_codes (db w)) ->
  email r = Some (toLowerCase e) -> code r = Some c ->
  created_at r > now - ttl ->
  live_match ttl e c now w.
Proof. intros. exists r. auto. Qed.

Lemma p000_replay_spec (r : row) (e c : string) (envs : list redeem_env) (w : world) :
  In r (verification_codes (db w)) ->
  email r = Some (toLowerCase e) -> code r = Some c ->
  Forall (fun env => select_failed env = false /\
                     created_at r > redeem_now env - Part000.TTL) envs ->
  Forall Valid (fst (Part000.replay envs (VerifyCode.mk (str e) (str c)) w)) /\
  snd (Part000.replay envs (VerifyCode.mk (str e) (str c)) w) = w.
Proof.
  intros Hin He Hc Hall. induction Hall as [|env envs [Hsel Hlive] _ [IH1 IH2]];
    simpl; [split; [constructor|reflexivity]|].
  pose proof (p000_verify_code_frame env (VerifyCode.mk (str e) (str c)) w) as Hframe.
  pose proof (proj1 (p000_redeem_spec env e c w Hsel)) as Hv.
  destruct (Part000.verify_code env (VerifyCode.mk (str e) (str c)) w) as [o w1].
  simpl in Hframe, Hv. subst w1.
  destruct (Part000.replay envs (VerifyCode.mk (str e) (str c)) w) as [os w2].
  simpl in *. split; [|assumption].
  constructor; [|assumption].
  apply Hv. now apply live_match_of_row with (r := r).
Qed.

Lemma p001_replay_spec (r : row) (e c : string) (envs : list redeem_env) (w : world) :
  well_formed (db w) = true ->
  In r (verification_codes (db w)) ->
  email r = Some (toLowerCase e) -> code r = Some c ->
  Forall (fun env => select_failed env = false /\
                     created_at r > redeem_now env - Part001.TTL) envs ->
  Forall Valid (fst (Part001.replay envs (VerifyCode.mk (str e) (str c)) w)) /\
  snd (Part001.replay envs (VerifyCode.mk (str e) (str c)) w) = w.
Proof.
  intros Hwf Hin He Hc Hall. induction Hall as [|env envs [Hsel Hlive] _ [IH1 IH2]];
    simpl; [split; [constructor|reflexivity]|].
  pose proof (p001_verify_code_frame env (VerifyCode.mk (str e) (str c)) w) as Hframe.
  pose proof (proj1 (p001_redeem_spec env e c w Hsel Hwf)) as Hv.
  destruct (Part001.verify_code env (VerifyCode.mk (str e) (str c)) w) as [o w1].
  simpl in Hframe, Hv. subst w1.
  destruct (Part001.replay envs (VerifyCode.mk (str e) (str c)) w) as [os w2].
  simpl in *. split; [|assumption].
  constructor; [|assumption].
  apply Hv. now apply live_match_of_row with (r := r).
Qed.

(** * The properties of the specification *)

(** C1.  For a redemption request carrying the strings [e] and [c] at
    time [now], once the lookup has completed, the answer is Valid
    (200, [valid: true]) exactly when the table holds a record whose
    email is [e] lowercased, whose code is [c] and whose [created_at]
    exceeds [now - TTL]; failing that, it is Invalid (400,
    [valid: false]).  In [part_001], whose guard turns empty strings
    away, this is stated over tables that hold issued rows only. *)
Theorem redeem_valid_iff_live_match :
  (forall (env : redeem_env) (e c : string) (w : world),
      select_failed env = false ->
      let o := fst (Part000.verify_code env (VerifyCode.mk (str e) (str c)) w) in
      (Valid o <-> live_match Part000.TTL e c (redeem_now env) w) /\
      (~ live_match Part000.TTL e c (redeem_now env) w -> Invalid o)) /\
  (forall (env : redeem_env) (e c : string) (w : world),
      select_failed env = false ->
      well_formed (db w) = true ->
      let o := fst (Part001.verify_code env (VerifyCode.mk (str e) (str c)) w) in
      (Valid o <-> live_match Part001.TTL e c (redeem_now env) w) /\
      (~ live_match Part001.TTL e c (redeem_now env) w -> Invalid o)).
Proof. split; [exact p000_redeem_spec|exact p001_redeem_spec]. Qed.

Lemma sample_live (ttl now : Z) :
  1000 > now - ttl ->
  live_match ttl "Alice@Example.com" "0ABCFF" now sample_world.
Proof.
  intros H. exists sample_row. repeat split; [now left|exact H].
Defined.

Lemma redeem_valid_iff_live_match_witness :
  select_failed (mkRedeemEnv 60000 false) = false /\
  well_formed (db sample_world) = true /\
  Valid (fst (Part000.verify_code (mkRedeemEnv 60000 false) sample_redeem_body
                sample_world)) /\
  Valid (fst (Part001.verify_code (mkRedeemEnv 60000 false) sample_redeem_body
                sample_world)).
Proof.
  split; [reflexivity|]. split; [reflexivity|]. split.
  - apply (proj1 redeem_valid_iff_live_match (mkRedeemEnv 60000 false)
             "Alice@Example.com" "0ABCFF" sample_world eq_refl).
    apply sample_live. unfold Part000.TTL. simpl. lia.
  - apply (proj2 redeem_valid_iff_live_match (mkRedeemEnv 60000 false)
             "Alice@Example.com" "0ABCFF" sample_world eq_refl eq_refl).
    apply sample_live. unfold Part001.TTL. simpl. lia.
Defined.

(** The sample table is what either server holds after the sample issuance. *)
Lemma sample_world_issued :
  db (snd (Part000.request_code sample_issue sample_body initial)) = db sample_world /\
  db (snd (Part001.request_code sample_issue sample_body initial)) = db sample_world.
Proof. split; reflexivity. Qed.

(** C2.  A redemption, successful or not, returns the state it was given:
    table and outbox are untouched.  Hence for a stored record, presenting
    its email and code again at any list of instants that all precede the
    end of its validity window is answered Valid every time and leaves the
    state as it was.  (A sweep removes a record only after that window.) *)
Theorem redeem_leaves_store_unchanged :
  (forall (env : redeem_env) (b : VerifyCode.body) (w : world),
      snd (Part000.verify_code env b w) = w /\
      snd (Part001.verify_code env b w) = w) /\
  (forall (r : row) (e c : string) (envs : list redeem_env) (w : world),
      In r (verification_codes (db w)) ->
      email r = Some (toLowerCase e) -> code r = Some c ->
      Forall (fun env => select_failed env = false /\
                         created_at r > redeem_now env - Part000.TTL) envs ->
      Forall Valid (fst (Part000.replay envs (VerifyCode.mk (str e) (str c)) w)) /\
      snd (Part000.replay envs (VerifyCode.mk (str e) (str c)) w) = w) /\
  (forall (r : row) (e c : string) (envs : list redeem_env) (w : world),
      well_formed (db w) = true ->
      In r (verification_codes (db w)) ->
      email r = Some (toLowerCase e) -> code r = Some c ->
      Forall (fun env => select_failed env = false /\
                         created_at r > redeem_now env - Part001.TTL) envs ->
      Forall Valid (fst (Part001.replay envs (VerifyCode.mk (str e) (str c)) w)) /\
      snd (Part001.replay envs (VerifyCode.mk (str e) (str c)) w) = w).
Proof.
  split; [|split].
  - intros env b w. split;
      [apply p000_verify_code_frame|apply p001_verify_code_frame].
  - exact p000_replay_spec.
  - exact p001_replay_spec.
Qed.

Lemma sample_replays_live (ttl : Z) :
  120000 <= ttl ->
  Forall (fun env => select_failed env = false /\
                     created_at sample_row > redeem_now env - ttl) sample_replays.
Proof.
  intros H. unfold sample_replays.
  repeat (apply Forall_cons;
          [split; [reflexivity|unfold sample_row; cbn [created_at redeem_now]; lia]|]).
  apply Forall_nil.
Defined.

Lemma redeem_leaves_store_unchanged_witness :
  In sample_row (verification_codes (db sample_world)) /\
  well_formed (db sample_world) = true /\
  (Forall Valid (fst (Part000.replay sample_replays sample_redeem_body sample_world)) /\
   snd (Part000.replay sample_replays sample_redeem_body sample_world) = sample_world) /\
  (Forall Valid (fst (Part001.replay sample_replays sample_redeem_body sample_world)) /\
   snd (Part001.replay sample_replays sample_redeem_body sample_world) = sample_world).
Proof.
  split; [now left|]. split; [reflexivity|]. split.
  - apply (proj1 (proj2 redeem_leaves_store_unchanged) sample_row
             "Alice@Example.com" "0ABCFF" sample_replays sample_world);
      [now left|reflexivity|reflexivity|].
    apply sample_replays_live. unfold Part000.TTL. lia.
  - apply (proj2 (proj2 redeem_leaves_store_unchanged) sample_row
             "Alice@Example.com" "0ABCFF" sample_replays sample_world);
      [reflexivity|now left|reflexivity|reflexivity|].
    apply sample_replays_live. unfold Part001.TTL. lia.
Defined.

(** C3, at the input where [part_000] departs from it.  A body without
    [email] makes [part_000] evaluate [email.toLowerCase()] on
    [undefined]: a TypeError leaves the handler and no 400 answer is
    produced.  With [email] present and [code] absent the lookup is run
    and the answer is the one of an unmatched code.  [part_001] answers
    both with its validation message. *)
Theorem p000_redeem_without_guard :
  forall (env : redeem_env) (k : value) (e : string) (w : world),
    Part000.verify_code env (VerifyCode.mk undefined k) w = (Uncaught TypeError, w) /\
    (select_failed env = false ->
     Part000.verify_code env (VerifyCode.mk (str e) undefined) w =
     (Responded (mkResponse 400 (JObject
        [("valid", JBool false);
         ("message", JString "Invalid or expired code.")])), w)) /\
    Part001.verify_code env (VerifyCode.mk undefined k) w =
    (Responded (mkResponse 400 (JObject
       [("valid", JBool false);
        ("message", JString "Email and code are required.")])), w) /\
    Part001.verify_code env (VerifyCode.mk (str e) undefined) w =
    (Responded (mkResponse 400 (JObject
       [("valid", JBool false);
        ("message", JString "Email and code are required.")])), w).
Proof.
  intros env k e w. split; [reflexivity|]. split; [|split].
  - intros H. unfold Part000.verify_code; simpl. rewrite H.
    destruct (select_code _ _ _ _) as [r|] eqn:E; [|reflexivity].
    unfold select_code in E. apply find_some in E. destruct E as [_ E].
    unfold matches in E. rewrite sql_eq_null, andb_false_r in E. discriminate.
  - apply p001_verify_code_guard. now left.
  - apply p001_verify_code_guard. now right.
Qed.

Lemma p000_redeem_without_guard_witness :
  select_failed (mkRedeemEnv 60000 false) = false /\
  Part000.verify_code (mkRedeemEnv 60000 false)
    (VerifyCode.mk undefined (str "0ABCFF")) sample_world =
  (Uncaught TypeError, sample_world).
Proof.
  split; [reflexivity|].
  exact (proj1 (p000_redeem_without_guard (mkRedeemEnv 60000 false)
                  (str "0ABCFF") "" sample_world)).
Defined.

(** The part of C3 that both servers keep: a body of [/request-code]
    that lacks a member, or has an empty one, is answered 400 and
    nothing is inserted or sent. *)
Lemma issue_guard_no_effect (env : issue_env) (b : RequestCode.body) (w : world) :
  accepted b = false ->
  Part000.request_code env b w =
    (Responded (mkResponse 400 (JObject
       [("message", JString "Company, username, and email are required.")])), w) /\
  Part001.request_code env b w =
    (Responded (mkResponse 400 (JObject
       [("message", JString "Company, username, and email are required.")])), w).
Proof.
  intros H. split; [now apply p000_request_code_guard|now apply p001_request_code_guard].
Qed.

(** ** Redemption after an issuance *)

Lemma p001_redeem_nonempty (env : redeem_env) (e c : string) (w : world) :
  select_failed env = false ->
  (e =? "")%string = false -> (c =? "")%string = false ->
  live_match Part001.TTL e c (redeem_now env) w ->
  Valid (fst (Part001.verify_code env (VerifyCode.mk (str e) (str c)) w)).
Proof.
  intros H He Hc Hlive. rewrite (p001_verify_code_verdict _ _ _ _ H He Hc).
  apply live_match_select in Hlive. destruct Hlive as [r ->]. now eexists.
Qed.

Lemma generateCode_nonempty (f : nat -> byte) : (generateCode f =? "")%string = false.
Proof. apply is_code_nonempty, generateCode_is_code. Qed.

Section Undelivered.
Variables (env : issue_env) (co u e : string) (w : world).
Hypothesis Hco : (co =? "")%string = false.
Hypothesis Hu : (u =? "")%string = false.
Hypothesis He : (e =? "")%string = false.
Hypothesis Hins : insert_failed env = false.

Let b := RequestCode.mk (str co) (str u) (str e).
Let r := issued_row env co u e (db w).

Lemma p000_issue_rows :
  verification_codes (db (snd (Part000.request_code env b w))) =
  (verification_codes (db w) ++ [r])%list.
Proof. unfold b. rewrite p000_issue_db by assumption. now rewrite Hins. Qed.

Lemma p001_issue_rows :
  verification_codes (db (snd (Part001.request_code env b w))) =
  (verification_codes (db w) ++ [r])%list.
Proof. unfold b. rewrite p001_issue_db by assumption. now rewrite Hins. Qed.

Lemma p000_redeem_after_issue (evs : list event) (renv : redeem_env) :
  sweeps_by (redeem_now renv) evs ->
  select_failed renv = false ->
  issue_now env > redeem_now renv - Part000.TTL ->
  Valid (fst (Part000.verify_code renv
                (VerifyCode.mk (str e) (str (generateCode (entropy env))))
                (Part000.run evs (snd (Part000.request_code env b w))))).
Proof.
  intros Hs Hsel Hlive.
  apply (proj1 (p000_redeem_spec renv e _ _ Hsel)).
  apply live_match_of_row with (r := r); try reflexivity; [|exact Hlive].
  apply p000_run_keeps with (t := redeem_now renv); [|exact Hlive|exact Hs].
  rewrite p000_issue_rows. apply in_or_app. right. now left.
Qed.

Lemma p001_redeem_after_issue (evs : list event) (renv : redeem_env) :
  sweeps_by (redeem_now renv) evs ->
  select_failed renv = false ->
  issue_now env > redeem_now renv - Part001.TTL ->
  Valid (fst (Part001.verify_code renv
                (VerifyCode.mk (str e) (str (generateCode (entropy env))))
                (Part001.run evs (snd (Part001.request_code env b w))))).
Proof.
  intros Hs Hsel Hlive.
  apply p001_redeem_nonempty; auto using generateCode_nonempty.
  apply live_match_of_row with (r := r); try reflexivity; [|exact Hlive].
  apply p001_run_keeps with (t := redeem_now renv); [|exact Hlive|exact Hs].
  rewrite p001_issue_rows. apply in_or_app. right. now left.
Qed.
End Undelivered.

(** C4.  When the insertion of an accepted issuance takes effect and the
    delivery then fails, the answer is 500 "Email failed to send." and
    the record is in the table all the same, appended as the last row.
    Whatever the server goes through afterwards, with sweeps no later
    than the redemption, presenting that email and that code before the
    validity window has run out is answered Valid. *)
Theorem undelivered_code_stays_redeemable :
  forall (env : issue_env) (co u e : string) (w : world),
    (co =? "")%string = false -> (u =? "")%string = false ->
    (e =? "")%string = false ->
    insert_failed env = false -> sendMail_failed env = true ->
    let b := RequestCode.mk (str co) (str u) (str e) in
    let redeem := VerifyCode.mk (str e) (str (generateCode (entropy env))) in
    (fst (Part000.request_code env b w) =
       Responded (mkResponse 500 (JObject [("message", JString "Email failed to send.")])) /\
     verification_codes (db (snd (Part000.request_code env b w))) =
       (verification_codes (db w) ++ [issued_row env co u e (db w)])%list /\
     forall (evs : list event) (renv : redeem_env),
       sweeps_by (redeem_now renv) evs -> select_failed renv = false ->
       issue_now env > redeem_now renv - Part000.TTL ->
       Valid (fst (Part000.verify_code renv redeem
                     (Part000.run evs (snd (Part000.request_code env b w)))))) /\
    (fst (Part001.request_code env b w) =
       Responded (mkResponse 500 (JObject [("message", JString "Email failed to send.")])) /\
     verification_codes (db (snd (Part001.request_code env b w))) =
       (verification_codes (db w) ++ [issued_row env co u e (db w)])%list /\
     forall (evs : list event) (renv : redeem_env),
       sweeps_by (redeem_now renv) evs -> select_failed renv = false ->
       issue_now env > redeem_now renv - Part001.TTL ->
       Valid (fst (Part001.verify_code renv redeem
                     (Part001.run evs (snd (Part001.request_code env b w)))))).
Proof.
  intros env co u e w Hco Hu He Hins Hmail b redeem. subst b redeem. split.
  - split; [|split].
    + rewrite p000_issue_response by assumption. now rewrite Hmail.
    + now apply p000_issue_rows.
    + intros evs renv. now apply p000_redeem_after_issue.
  - split; [|split].
    + rewrite p001_issue_response by assumption. now rewrite Hins, Hmail.
    + now apply p001_issue_rows.
    + intros evs renv. now apply p001_redeem_after_issue.
Qed.

Lemma undelivered_code_stays_redeemable_witness :
  insert_failed sample_undelivered = false /\
  sendMail_failed sample_undelivered = true /\
  fst (Part000.request_code sample_undelivered sample_body initial) =
    Responded (mkResponse 500 (JObject [("message", JString "Email failed to send.")])) /\
  Valid (fst (Part001.verify_code (mkRedeemEnv 200000 false)
                (VerifyCode.mk (str "ALICE@Example.com") (str "0ABCFF"))
                (Part001.run [Sweep 150000 false]
                   (snd (Part001.request_code sample_undelivered sample_body initial))))).
Proof.
  split; [reflexivity|]. split; [reflexivity|].
  pose proof (undelivered_code_stays_redeemable sample_undelivered
                "Acme" "alice" "ALICE@Example.com" initial
                eq_refl eq_refl eq_refl eq_refl eq_refl) as [H0 H1].
  split; [exact (proj1 H0)|].
  apply (proj2 (proj2 H1) [Sweep 150000 false] (mkRedeemEnv 200000 false)).
  - repeat constructor. simpl. lia.
  - reflexivity.
  - unfold Part001.TTL. simpl. lia.
Defined.

(** ** The reaper *)

Lemma keep_filter (cutoff : Z) (l : list row) :
  filter (fun r => negb (created_at r <? cutoff)) l =
  filter (fun r => cutoff <=? created_at r) l.
Proof.
  apply filter_ext. intros r. now rewrite Z.leb_antisym.
Qed.

(** C5.  A tick whose DELETE takes effect computes [cutoff = now - TTL]
    and keeps, in order and as they were, exactly the rows with
    [created_at >= cutoff]; the rows with [created_at < cutoff] are gone.
    Nothing else changes, and the same sweep applied again changes
    nothing more. *)
Theorem sweep_deletes_exactly_the_expired :
  forall (now : Z) (w : world),
    (let cutoff := now - Part000.TTL in
     let w' := Part000.cleanup now false w in
     verification_codes (db w') =
       filter (fun r => cutoff <=? created_at r) (verification_codes (db w)) /\
     (forall r, In r (verification_codes (db w')) <->
                In r (verification_codes (db w)) /\ created_at r >= cutoff) /\
     (forall r, created_at r < cutoff -> ~ In r (verification_codes (db w'))) /\
     sqlite_sequence (db w') = sqlite_sequence (db w) /\
     sent w' = sent w /\
     Part000.cleanup now false w' = w') /\
    (let cutoff := now - Part001.TTL in
     let w' := Part001.cleanup now false w in
     verification_codes (db w') =
       filter (fun r => cutoff <=? created_at r) (verification_codes (db w)) /\
     (forall r, In r (verification_codes (db w')) <->
                In r (verification_codes (db w)) /\ created_at r >= cutoff) /\
     (forall r, created_at r < cutoff -> ~ In r (verification_codes (db w'))) /\
     sqlite_sequence (db w') = sqlite_sequence (db w) /\
     sent w' = sent w /\
     Part001.cleanup now false w' = w').
Proof.
  intros now w. split.
  - cbv zeta. unfold Part000.cleanup, Part000.TTL, db_run. cbn [db sent].
    split; [|split; [|split; [|split; [|split]]]]; try reflexivity.
    + apply keep_filter.
    + intros r. apply delete_older_In.
    + intros r Hr Hin. apply delete_older_In in Hin. lia.
    + now rewrite delete_older_idempotent.
  - cbv zeta. unfold Part001.cleanup, Part001.TTL, db_run. cbn [db sent].
    split; [|split; [|split; [|split; [|split]]]]; try reflexivity.
    + apply keep_filter.
    + intros r. apply delete_older_In.
    + intros r Hr Hin. apply delete_older_In in Hin. lia.
    + now rewrite delete_older_idempotent.
Qed.

(** ** Health *)

Lemma mark_ok (b : bool) : mark b = "ok" <-> b = true.
Proof. destruct b; simpl; split; congruence. Qed.

Lemma mark_error (b : bool) : mark b = "error" <-> b = false.
Proof. destruct b; simpl; split; congruence. Qed.

(** [part_001] aggregates in the same way over a single handshake. *)
Lemma p001_health_single_handshake (env : health_env) (w : world) :
  (fst (Part001.health env w) =
     mkResponse 200 (report "ok" "ok" "ok" (timestamp env)) <->
   ping_failed env = false /\ verify_ok env 0%nat = true) /\
  (~ (ping_failed env = false /\ verify_ok env 0%nat = true) ->
   fst (Part001.health env w) =
     mkResponse 500 (report "error" (mark (negb (ping_failed env)))
                       (mark (verify_ok env 0%nat)) (timestamp env))) /\
  snd (Part001.health env w) = [Verify (verify_ok env 0%nat)].
Proof.
  pose proof (p001_health_eq env w) as H1. cbv zeta in H1. rewrite H1.
  cbn [fst snd]. clear H1. split; [|split].
  - destruct (ping_failed env), (verify_ok env 0%nat); simpl; split;
      try discriminate; try (intros [Hp Hv]; discriminate); auto.
  - intros Hn.
    destruct (ping_failed env), (verify_ok env 0%nat); simpl; try reflexivity.
    exfalso. apply Hn. auto.
  - reflexivity.
Qed.

(** C6.  [GET /health] of [part_000] answers 200 with status "ok"
    exactly when [SELECT 1] succeeds and one of the handshakes 0..3
    (the first attempt and three retries) succeeds; otherwise it answers
    500 with status "error", and each component is marked "error"
    exactly when its probe failed.  The handshakes stop at the first
    success or with the fourth failure, and a timer of 1000 ms sits
    between any two of them. *)
Theorem health_ok_iff_both_probes :
  forall (env : health_env) (w : world),
    let within := exists k, (k <= 3)%nat /\ verify_ok env k = true in
    let made := handshakes (verify_ok env) 0 4 in
    (fst (Part000.health env w) =
       mkResponse 200 (report "ok" "ok" "ok" (timestamp env)) <->
     ping_failed env = false /\ within) /\
    (~ (ping_failed env = false /\ within) ->
     exists database smtp,
       fst (Part000.health env w) =
         mkResponse 500 (report "error" database smtp (timestamp env)) /\
       (database = "error" <-> ping_failed env = true) /\
       (database = "ok" <-> ping_failed env = false) /\
       (smtp = "error" <-> ~ within) /\
       (smtp = "ok" <-> within)) /\
    snd (Part000.health env w) =
      intersperse (SetTimeout 1000)
        (map (fun i => Verify (verify_ok env i)) (seq 0 made)) /\
    (1 <= made <= 4)%nat /\
    (forall i, (S i < made)%nat -> verify_ok env i = false) /\
    (within -> verify_ok env (made - 1) = true).
Proof.
  intros env w within made.
  assert (Hwithin : existsb (verify_ok env) (seq 0 4) = true <-> within).
  { rewrite within_budget. subst within.
    split; intros [k [Hk Hf]]; exists k; split; auto; lia. }
  pose proof (p000_health_eq env w) as H0. cbv zeta in H0. rewrite H0.
  cbn [fst snd]. clear H0.
  split; [|split; [|split; [|split; [|split]]]].
  - split.
    + intros Heq.
      destruct (ping_failed env), (existsb (verify_ok env) (seq 0 4)) eqn:E;
        cbn [negb andb] in Heq; try discriminate Heq.
      split; [reflexivity|now apply Hwithin].
    + intros [Hp Hw]. apply Hwithin in Hw. now rewrite Hp, Hw.
  - intros Hn.
    exists (mark (negb (ping_failed env))),
           (mark (existsb (verify_ok env) (seq 0 4))).
    rewrite !mark_error, !mark_ok, negb_false_iff, negb_true_iff, <- Hwithin.
    split; [|split; [tauto|split; [tauto|split; [|tauto]]]].
    + destruct (ping_failed env), (existsb (verify_ok env) (seq 0 4)) eqn:E;
        simpl; try reflexivity.
      exfalso. apply Hn. split; [reflexivity|now apply Hwithin].
    + now rewrite not_true_iff_false.
  - reflexivity.
  - subst made. split; [|apply handshakes_bound].
    simpl. destruct (verify_ok env 0%nat); lia.
  - intros i Hi. apply (handshakes_short_circuit (verify_ok env) 4 0 i); [lia|].
    exact Hi.
  - intros Hw. apply Hwithin in Hw.
    apply (handshakes_stop_at_success (verify_ok env) 4 0) in Hw. exact Hw.
Qed.

Lemma health_ok_iff_both_probes_witness :
  (ping_failed sample_health = false /\
   exists k, (k <= 3)%nat /\ verify_ok sample_health k = true) /\
  fst (Part000.health sample_health initial) =
    mkResponse 200 (report "ok" "ok" "ok" (timestamp sample_health)).
Proof.
  assert (H : ping_failed sample_health = false /\
              exists k, (k <= 3)%nat /\ verify_ok sample_health k = true).
  { split; [reflexivity|]. exists 3%nat. split; [lia|reflexivity]. }
  split; [exact H|].
  exact (proj2 (proj1 (health_ok_iff_both_probes sample_health initial)) H).
Defined.

(** ** Failure of the insertion *)

(** In [part_001] a failed insertion of an accepted request is answered
    500 with a fixed message, whatever the delivery would have done, and
    nothing is stored or sent. *)
Lemma p001_insert_failure_reported (env : issue_env) (co u e : string) (w : world) :
  (co =? "")%string = false -> (u =? "")%string = false ->
  (e =? "")%string = false ->
  insert_failed env = true ->
  Part001.request_code env (RequestCode.mk (str co) (str u) (str e)) w =
  (Responded (mkResponse 500 (JObject [("message", JString "Failed to store code.")])),
   w).
Proof.
  intros Hco Hu He Hins.
  pose proof (p001_issue_response env co u e w Hco Hu He) as Hr.
  pose proof (p001_issue_sent_on_insert_failure env co u e w Hco Hu He Hins) as Hw.
  rewrite Hins in Hr.
  destruct (Part001.request_code env (RequestCode.mk (str co) (str u) (str e)) w)
    as [o w1].
  simpl in Hr, Hw. now subst.
Qed.

(** C7, at the input where [part_000] departs from it.  [part_000]
    submits the INSERT without a callback: when the insertion fails the
    handler goes on, hands the mail to the transport and, the delivery
    succeeding, answers 200 "Verification code sent." although no record
    was stored.  [part_001] tests the error argument and answers 500
    "Failed to store code." without sending anything. *)
Theorem p000_insert_failure_goes_unreported :
  forall (env : issue_env) (co u e : string) (w : world),
    (co =? "")%string = false -> (u =? "")%string = false ->
    (e =? "")%string = false ->
    insert_failed env = true -> sendMail_failed env = false ->
    let b := RequestCode.mk (str co) (str u) (str e) in
    (fst (Part000.request_code env b w) =
       Responded (mkResponse 200 (JObject [("message", JString "Verification code sent.")])) /\
     db (snd (Part000.request_code env b w)) = db w /\
     exists m, sent (snd (Part000.request_code env b w)) = (sent w ++ [m])%list) /\
    Part001.request_code env b w =
      (Responded (mkResponse 500 (JObject [("message", JString "Failed to store code.")])),
       w).
Proof.
  intros env co u e w Hco Hu He Hins Hmail b. subst b. split; [split; [|split]|].
  - rewrite p000_issue_response by assumption. now rewrite Hmail.
  - rewrite p000_issue_db by assumption. now rewrite Hins.
  - destruct (p000_issue_mail env co u e w Hco Hu He) as [m [Hm _]]. now exists m.
  - now apply p001_insert_failure_reported.
Qed.

Lemma p000_insert_failure_goes_unreported_witness :
  insert_failed sample_unstored = true /\
  sendMail_failed sample_unstored = false /\
  fst (Part000.request_code sample_unstored sample_body initial) =
    Responded (mkResponse 200 (JObject [("message", JString "Verification code sent.")])) /\
  db (snd (Part000.request_code sample_unstored sample_body initial)) = empty_db.
Proof.
  split; [reflexivity|]. split; [reflexivity|].
  pose proof (p000_insert_failure_goes_unreported sample_unstored
                "Acme" "alice" "ALICE@Example.com" initial
                eq_refl eq_refl eq_refl eq_refl eq_refl) as [[H0 [H1 _]] _].
  split; [exact H0|exact H1].
Defined.

(** ** The persisted record *)






(** The scenario of the specification: the stored address. *)
Lemma sample_email_lowercased : toLowerCase "ALICE@Example.com" = "alice@example.com".
Proof. reflexivity. Qed.

(** ** What the caller can observe *)

(** C9.  Two redemption requests that pass the checks on the body and
    whose lookups complete without finding a live record - the code is
    wrong, the email has no record, or the record is too old - get the
    very same answer: 400, [valid: false] and the one fixed message of
    the server.  [part_000] has no check on the body, so there this holds
    for any two strings.  In [part_001] one and the same request, empty
    strings included, is answered alike in any two states without a live
    record. *)
Theorem failed_redemptions_answer_alike :
  (forall (env1 env2 : redeem_env) (e1 c1 e2 c2 : string) (w1 w2 : world),
      select_failed env1 = false -> select_failed env2 = false ->
      ~ live_match Part000.TTL e1 c1 (redeem_now env1) w1 ->
      ~ live_match Part000.TTL e2 c2 (redeem_now env2) w2 ->
      fst (Part000.verify_code env1 (VerifyCode.mk (str e1) (str c1)) w1) =
      fst (Part000.verify_code env2 (VerifyCode.mk (str e2) (str c2)) w2) /\
      fst (Part000.verify_code env1 (VerifyCode.mk (str e1) (str c1)) w1) =
      Responded (mkResponse 400 (JObject
        [("valid", JBool false); ("message", JString "Invalid or expired code.")]))) /\
  (forall (env1 env2 : redeem_env) (e1 c1 e2 c2 : string) (w1 w2 : world),
      select_failed env1 = false -> select_failed env2 = false ->
      (e1 =? "")%string = false -> (c1 =? "")%string = false ->
      (e2 =? "")%string = false -> (c2 =? "")%string = false ->
      ~ live_match Part001.TTL e1 c1 (redeem_now env1) w1 ->
      ~ live_match Part001.TTL e2 c2 (redeem_now env2) w2 ->
      fst (Part001.verify_code env1 (VerifyCode.mk (str e1) (str c1)) w1) =
      fst (Part001.verify_code env2 (VerifyCode.mk (str e2) (str c2)) w2) /\
      fst (Part001.verify_code env1 (VerifyCode.mk (str e1) (str c1)) w1) =
      Responded (mkResponse 400 (JObject
        [("valid", JBool false);
         ("message", JString "❌ Invalid or expired code.")]))) /\
  (forall (env1 env2 : redeem_env) (e c : string) (w1 w2 : world),
      select_failed env1 = false -> select_failed env2 = false ->
      ~ live_match Part001.TTL e c (redeem_now env1) w1 ->
      ~ live_match Part001.TTL e c (redeem_now env2) w2 ->
      fst (Part001.verify_code env1 (VerifyCode.mk (str e) (str c)) w1) =
      fst (Part001.verify_code env2 (VerifyCode.mk (str e) (str c)) w2)).
Proof.
  split; [|split].
  3: {
    intros env1 env2 e c w1 w2 H1 H2 N1 N2.
    destruct (e =? "")%string eqn:He; [|destruct (c =? "")%string eqn:Hc].
    - now rewrite !p001_verify_code_guard by (left; simpl; now rewrite He).
    - now rewrite !p001_verify_code_guard by (right; simpl; now rewrite Hc).
    - rewrite (p001_verify_code_verdict _ _ _ _ H1 He Hc),
              (p001_verify_code_verdict _ _ _ _ H2 He Hc).
      rewrite live_match_select in N1, N2.
      destruct (select_code _ _ _ (db w1)) as [r1|]; [exfalso; apply N1; now exists r1|].
      destruct (select_code _ _ _ (db w2)) as [r2|]; [exfalso; apply N2; now exists r2|].
      reflexivity. }
  - intros env1 env2 e1 c1 e2 c2 w1 w2 H1 H2 N1 N2.
    rewrite (p000_verify_code_verdict _ _ _ _ H1), (p000_verify_code_verdict _ _ _ _ H2).
    rewrite live_match_select in N1, N2. simpl bind.
    destruct (select_code _ _ _ (db w1)) as [r1|]; [exfalso; apply N1; now exists r1|].
    destruct (select_code _ _ _ (db w2)) as [r2|]; [exfalso; apply N2; now exists r2|].
    split; reflexivity.
  - intros env1 env2 e1 c1 e2 c2 w1 w2 H1 H2 He1 Hc1 He2 Hc2 N1 N2.
    rewrite (p001_verify_code_verdict _ _ _ _ H1 He1 Hc1),
            (p001_verify_code_verdict _ _ _ _ H2 He2 Hc2).
    rewrite live_match_select in N1, N2.
    destruct (select_code _ _ _ (db w1)) as [r1|]; [exfalso; apply N1; now exists r1|].
    destruct (select_code _ _ _ (db w2)) as [r2|]; [exfalso; apply N2; now exists r2|].
    split; reflexivity.
Qed.

(** The three ways of finding no live record, on the sample table. *)
Lemma sample_wrong_code (ttl now : Z) :
  ~ live_match ttl "alice@example.com" "0ABCF0" now sample_world.
Proof.
  intros [r [[<-|[]] [_ [Hc _]]]]. discriminate Hc.
Defined.

Lemma sample_unknown_email (ttl now : Z) :
  ~ live_match ttl "bob@example.com" "0ABCFF" now sample_world.
Proof.
  intros [r [[<-|[]] [He _]]]. discriminate He.
Defined.

Lemma sample_expired (ttl now : Z) :
  now - ttl >= 1000 ->
  ~ live_match ttl "alice@example.com" "0ABCFF" now sample_world.
Proof.
  intros H [r [[<-|[]] [_ [_ Ht]]]]. simpl in Ht. lia.
Defined.

Lemma failed_redemptions_answer_alike_witness :
  (fst (Part000.verify_code (mkRedeemEnv 60000 false)
          (VerifyCode.mk (str "alice@example.com") (str "0ABCF0")) sample_world) =
   fst (Part000.verify_code (mkRedeemEnv 121000 false)
          (VerifyCode.mk (str "alice@example.com") (str "0ABCFF")) sample_world)) /\
  (fst (Part001.verify_code (mkRedeemEnv 60000 false)
          (VerifyCode.mk (str "bob@example.com") (str "0ABCFF")) sample_world) =
   fst (Part001.verify_code (mkRedeemEnv 301000 false)
          (VerifyCode.mk (str "alice@example.com") (str "0ABCFF")) sample_world)).
Proof.
  split.
  - apply (proj1 failed_redemptions_answer_alike
             (mkRedeemEnv 60000 false) (mkRedeemEnv 121000 false)
             "alice@example.com" "0ABCF0" "alice@example.com" "0ABCFF"
             sample_world sample_world eq_refl eq_refl).
    + apply sample_wrong_code.
    + apply sample_expired. unfold Part000.TTL. simpl. lia.
  - apply (proj1 (proj2 failed_redemptions_answer_alike)
             (mkRedeemEnv 60000 false) (mkRedeemEnv 301000 false)
             "bob@example.com" "0ABCFF" "alice@example.com" "0ABCFF"
             sample_world sample_world eq_refl eq_refl eq_refl eq_refl eq_refl eq_refl).
    + apply sample_unknown_email.
    + apply sample_expired. unfold Part001.TTL. simpl. lia.
Defined.

(** C10.  The answer to an issuance request does not depend on the
    entropy the code is drawn from: with any other entropy source, all
    else equal, the answer is the same, be it a success or a failure.
    The code leaves the server in the message handed to the transport,
    addressed to the normalised email: [part_000] puts it in the body as
    it is, [part_001] one character per [div]. *)
Theorem issue_response_hides_code :
  (forall (env : issue_env) (f : nat -> byte) (b : RequestCode.body) (w : world),
      fst (Part000.request_code (with_entropy env f) b w) =
        fst (Part000.request_code env b w) /\
      fst (Part001.request_code (with_entropy env f) b w) =
        fst (Part001.request_code env b w)) /\
  (forall (env : issue_env) (co u e : string) (w : world),
      (co =? "")%string = false -> (u =? "")%string = false ->
      (e =? "")%string = false ->
      exists m,
        sent (snd (Part000.request_code env
                     (RequestCode.mk (str co) (str u) (str e)) w)) = (sent w ++ [m])%list /\
        to m = toLowerCase e /\
        occurs (generateCode (entropy env)) (html m)) /\
  (forall (env : issue_env) (co u e : string) (w : world),
      (co =? "")%string = false -> (u =? "")%string = false ->
      (e =? "")%string = false ->
      insert_failed env = false ->
      exists m,
        sent (snd (Part001.request_code env
                     (RequestCode.mk (str co) (str u) (str e)) w)) = (sent w ++ [m])%list /\
        to m = toLowerCase e /\
        occurs (codeDigits (generateCode (entropy env))) (html m)).
Proof.
  split; [|split; [exact p000_issue_mail|exact p001_issue_mail]].
  intros env f b w. issue_cases b A.
  - rewrite !p000_issue_response, !p001_issue_response by assumption.
    split; reflexivity.
  - rewrite !p000_request_code_guard, !p001_request_code_guard by assumption.
    split; reflexivity.
Qed.

Lemma issue_response_hides_code_witness :
  generateCode other_entropy <> generateCode sample_entropy /\
  fst (Part000.request_code (with_entropy sample_issue other_entropy) sample_body initial) =
    fst (Part000.request_code sample_issue sample_body initial) /\
  exists m,
    sent (snd (Part001.request_code sample_issue sample_body initial)) = ([] ++ [m])%list /\
    to m = toLowerCase "ALICE@Example.com" /\
    occurs (codeDigits (generateCode sample_entropy)) (html m).
Proof.
  split; [discriminate|]. split.
  - exact (proj1 (proj1 issue_response_hides_code sample_issue other_entropy
                    sample_body initial)).
  - exact (proj2 (proj2 issue_response_hides_code) sample_issue
             "Acme" "alice" "ALICE@Example.com" initial
             eq_refl eq_refl eq_refl eq_refl).
Defined.

(** * Further properties of the two servers *)

(** ** The code determines its entropy *)

Lemma hex_pair_value (b : byte) :
  hex_value (upper_char (hex_digit (Byte.to_N b / 16))) = Some (Byte.to_N b / 16)%N /\
  hex_value (upper_char (hex_digit (Byte.to_N b mod 16))) = Some (Byte.to_N b mod 16)%N.
Proof. destruct b; split; reflexivity. Qed.

Lemma parse_hex_upper (buf : list byte) :
  parse_hex (toUpperCase (toString_hex buf)) = Some (map Byte.to_N buf).
Proof.
  unfold toUpperCase. induction buf as [|b buf IH]; [reflexivity|].
  cbn [toString_hex map_string parse_hex map].
  destruct (hex_pair_value b) as [Hh Hl]. rewrite Hh, Hl, IH.
  do 2 f_equal. symmetry. apply N.div_mod. discriminate.
Qed.

Lemma to_N_injective (a b : byte) : Byte.to_N a = Byte.to_N b -> a = b.
Proof.
  intros H. pose proof (Byte.of_to_N a) as Ha. rewrite H, Byte.of_to_N in Ha.
  congruence.
Qed.

(** X1.  The code spells the three bytes it was made from: reading its
    six characters back as hexadecimal gives these bytes, so two codes
    are equal exactly when the three bytes are. *)
Theorem code_spells_its_bytes :
  forall (f g : nat -> byte),
    parse_hex (generateCode f) = Some (map Byte.to_N (randomBytes f 3)) /\
    (generateCode f = generateCode g <->
     f 0%nat = g 0%nat /\ f 1%nat = g 1%nat /\ f 2%nat = g 2%nat).
Proof.
  intros f g. split; [apply parse_hex_upper|]. split.
  - intros H.
    pose proof (parse_hex_upper (randomBytes f 3)) as Hf.
    pose proof (parse_hex_upper (randomBytes g 3)) as Hg.
    fold (generateCode f) in Hf. fold (generateCode g) in Hg.
    rewrite H, Hg in Hf. injection Hf as H0 H1 H2.
    auto using to_N_injective.
  - intros [H0 [H1 H2]]. unfold generateCode, randomBytes. simpl.
    now rewrite H0, H1, H2.
Qed.

(** ** Sweeps against lookups *)

Lemma find_filter_keeps {A : Type} (p q : A -> bool) (l : list A) :
  (forall x, p x = true -> q x = true) ->
  find p (filter q l) = find p l.
Proof.
  intros H. induction l as [|x l IH]; simpl; [reflexivity|].
  destruct (q x) eqn:Q; simpl.
  - now rewrite IH.
  - destruct (p x) eqn:P; [|exact IH].
    apply H in P. congruence.
Qed.

Lemma select_after_delete (e k : sqltext) (notBefore cutoff : Z) (failed : bool)
      (d : database) :
  cutoff <= notBefore ->
  select_code e k notBefore (db_run failed (delete_older cutoff) d) =
  select_code e k notBefore d.
Proof.
  intros H. destruct failed; [reflexivity|].
  unfold select_code, delete_older; simpl. apply find_filter_keeps.
  intros r Hr. unfold matches in Hr.
  apply andb_true_iff in Hr. destruct Hr as [_ Hr]. apply Z.gtb_gt in Hr.
  apply negb_true_iff, Z.ltb_ge. lia.
Qed.

(** X2.  A sweep whose DELETE takes effect cannot be seen through
    [/verify-code]: whatever the body, a redemption that happens no
    earlier than the sweep is answered the same with and without it. *)
Theorem sweep_is_invisible_to_redemption :
  forall (env : redeem_env) (b : VerifyCode.body) (s : Z) (w : world),
    s <= redeem_now env ->
    fst (Part000.verify_code env b (Part000.cleanup s false w)) =
      fst (Part000.verify_code env b w) /\
    fst (Part001.verify_code env b (Part001.cleanup s false w)) =
      fst (Part001.verify_code env b w).
Proof.
  intros env b s w Hs. split.
  - unfold Part000.verify_code, Part000.cleanup. cbn [db].
    destruct (call_toLowerCase (VerifyCode.email b)); [|reflexivity].
    destruct (select_failed env); [reflexivity|].
    rewrite select_after_delete by lia.
    now destruct (select_code _ _ _ _).
  - unfold Part001.verify_code, Part001.cleanup. cbn [db].
    destruct (negb (truthy (VerifyCode.email b)) || negb (truthy (VerifyCode.code b)));
      [reflexivity|].
    destruct (call_toLowerCase (VerifyCode.email b)); [|reflexivity].
    destruct (select_failed env); [reflexivity|].
    rewrite select_after_delete by lia.
    now destruct (select_code _ _ _ _).
Qed.

Lemma sweep_is_invisible_to_redemption_witness :
  150000 <= redeem_now (mkRedeemEnv 200000 false) /\
  fst (Part001.verify_code (mkRedeemEnv 200000 false) sample_redeem_body
         (Part001.cleanup 150000 false sample_world)) =
  fst (Part001.verify_code (mkRedeemEnv 200000 false) sample_redeem_body sample_world).
Proof.
  assert (H : 150000 <= redeem_now (mkRedeemEnv 200000 false)) by (simpl; lia).
  split; [exact H|].
  exact (proj2 (sweep_is_invisible_to_redemption (mkRedeemEnv 200000 false)
                  sample_redeem_body 150000 sample_world H)).
Defined.

(** X3.  The lookup and the sweep disagree on the last instant: a row
    created exactly one validity window before [now] is matched by no
    lookup made at [now] or later, yet the sweep of [now] keeps it; any
    later sweep removes it. *)
Theorem boundary_row_is_dead_but_kept :
  forall (now : Z) (r : row) (w : world),
    In r (verification_codes (db w)) ->
    (created_at r = now - Part000.TTL ->
     (forall e k t, now <= t -> matches e k (t - Part000.TTL) r = false) /\
     In r (verification_codes (db (Part000.cleanup now false w))) /\
     (forall s, now < s ->
        ~ In r (verification_codes (db (Part000.cleanup s false w))))) /\
    (created_at r = now - Part001.TTL ->
     (forall e k t, now <= t -> matches e k (t - Part001.TTL) r = false) /\
     In r (verification_codes (db (Part001.cleanup now false w))) /\
     (forall s, now < s ->
        ~ In r (verification_codes (db (Part001.cleanup s false w))))).
Proof.
  intros now r w Hin. split; intros Hc; (split; [|split]).
  - intros e k t Ht. unfold matches.
    replace (created_at r >? t - Part000.TTL) with false;
      [now rewrite andb_false_r|].
    symmetry. rewrite Z.gtb_ltb. apply Z.ltb_ge. lia.
  - unfold Part000.cleanup; cbn [db db_run]. apply delete_older_In.
    split; [exact Hin|]. unfold Part000.TTL in Hc. lia.
  - intros s Hs H. unfold Part000.cleanup in H; cbn [db db_run] in H.
    apply delete_older_In in H. unfold Part000.TTL in Hc. lia.
  - intros e k t Ht. unfold matches.
    replace (created_at r >? t - Part001.TTL) with false;
      [now rewrite andb_false_r|].
    symmetry. rewrite Z.gtb_ltb. apply Z.ltb_ge. lia.
  - unfold Part001.cleanup; cbn [db db_run]. apply delete_older_In.
    split; [exact Hin|]. unfold Part001.TTL in Hc. lia.
  - intros s Hs H. unfold Part001.cleanup in H; cbn [db db_run] in H.
    apply delete_older_In in H. unfold Part001.TTL in Hc. lia.
Qed.

Lemma boundary_row_is_dead_but_kept_witness :
  In sample_row (verification_codes (db sample_world)) /\
  created_at sample_row = 121000 - Part000.TTL /\
  In sample_row (verification_codes (db (Part000.cleanup 121000 false sample_world))) /\
  fst (Part000.verify_code (mkRedeemEnv 121000 false) sample_redeem_body
         (Part000.cleanup 121000 false sample_world)) =
  Responded (mkResponse 400 (JObject
    [("valid", JBool false); ("message", JString "Invalid or expired code.")])).
Proof.
  assert (Hin : In sample_row (verification_codes (db sample_world))) by now left.
  assert (Hc : created_at sample_row = 121000 - Part000.TTL) by reflexivity.
  split; [exact Hin|]. split; [exact Hc|].
  split; [|reflexivity].
  exact (proj1 (proj2 (proj1 (boundary_row_is_dead_but_kept 121000 sample_row
                                sample_world Hin) Hc))).
Defined.

Lemma filter_filter {A : Type} (p q : A -> bool) (l : list A) :
  filter p (filter q l) = filter (fun x => p x && q x) l.
Proof.
  induction l as [|x l IH]; simpl; [reflexivity|].
  destruct (q x); simpl; [destruct (p x); simpl; now rewrite IH|].
  now rewrite andb_false_r.
Qed.

Lemma delete_older_twice (a b : Z) (d : database) :
  delete_older a (delete_older b d) = delete_older (Z.max a b) d.
Proof.
  unfold delete_older; simpl. f_equal. rewrite filter_filter.
  apply filter_ext. intros r.
  destruct (created_at r <? a) eqn:A, (created_at r <? b) eqn:B,
           (created_at r <? Z.max a b) eqn:M; simpl; try reflexivity; exfalso;
    rewrite ?Z.ltb_lt, ?Z.ltb_ge in *; lia.
Qed.

(** X4.  Two sweeps whose DELETEs take effect amount to the later one
    alone, in whichever order they run. *)
Theorem sweeps_compose :
  forall (a b : Z) (w : world),
    Part000.cleanup a false (Part000.cleanup b false w) =
      Part000.cleanup (Z.max a b) false w /\
    Part000.cleanup a false (Part000.cleanup b false w) =
      Part000.cleanup b false (Part000.cleanup a false w) /\
    Part001.cleanup a false (Part001.cleanup b false w) =
      Part001.cleanup (Z.max a b) false w /\
    Part001.cleanup a false (Part001.cleanup b false w) =
      Part001.cleanup b false (Part001.cleanup a false w).
Proof.
  intros a b w.
  assert (H0 : forall x y, Part000.cleanup x false (Part000.cleanup y false w) =
                           Part000.cleanup (Z.max x y) false w).
  { intros x y. unfold Part000.cleanup; cbn [db sent db_run].
    rewrite delete_older_twice. do 2 f_equal. lia. }
  assert (H1 : forall x y, Part001.cleanup x false (Part001.cleanup y false w) =
                           Part001.cleanup (Z.max x y) false w).
  { intros x y. unfold Part001.cleanup; cbn [db sent db_run].
    rewrite delete_older_twice. do 2 f_equal. lia. }
  split; [apply H0|]. split; [now rewrite !H0, Z.max_comm|].
  split; [apply H1|]. now rewrite !H1, Z.max_comm.
Qed.

(** ** Issuance adds, it never replaces *)

(** X5.  Two accepted issuances for the same email, both stored, leave
    two rows at the end of the table, and each code is answered Valid for
    as long as its own window lasts, whatever the other one is. *)
Theorem issuance_is_additive :
  forall (env1 env2 : issue_env) (co1 u1 co2 u2 e : string) (w : world)
         (renv : redeem_env),
    (co1 =? "")%string = false -> (u1 =? "")%string = false ->
    (co2 =? "")%string = false -> (u2 =? "")%string = false ->
    (e =? "")%string = false ->
    insert_failed env1 = false -> insert_failed env2 = false ->
    select_failed renv = false ->
    let b1 := RequestCode.mk (str co1) (str u1) (str e) in
    let b2 := RequestCode.mk (str co2) (str u2) (str e) in
    let first := VerifyCode.mk (str e) (str (generateCode (entropy env1))) in
    let second := VerifyCode.mk (str e) (str (generateCode (entropy env2))) in
    (let w2 := snd (Part000.request_code env2 b2 (snd (Part000.request_code env1 b1 w))) in
     (exists r1 r2, verification_codes (db w2) =
                    (verification_codes (db w) ++ [r1; r2])%list) /\
     (issue_now env1 > redeem_now renv - Part000.TTL ->
      Valid (fst (Part000.verify_code renv first w2))) /\
     (issue_now env2 > redeem_now renv - Part000.TTL ->
      Valid (fst (Part000.verify_code renv second w2)))) /\
    (let w2 := snd (Part001.request_code env2 b2 (snd (Part001.request_code env1 b1 w))) in
     (exists r1 r2, verification_codes (db w2) =
                    (verification_codes (db w) ++ [r1; r2])%list) /\
     (issue_now env1 > redeem_now renv - Part001.TTL ->
      Valid (fst (Part001.verify_code renv first w2))) /\
     (issue_now env2 > redeem_now renv - Part001.TTL ->
      Valid (fst (Part001.verify_code renv second w2)))).
Proof.
  intros env1 env2 co1 u1 co2 u2 e w renv Hco1 Hu1 Hco2 Hu2 He Hi1 Hi2 Hsel.
  cbv zeta. split; (split; [|split]).
  - do 2 eexists. rewrite !p000_issue_rows by assumption.
    rewrite <- app_assoc. reflexivity.
  - intros Ht.
    apply (p000_redeem_after_issue env1 co1 u1 e w Hco1 Hu1 He Hi1
             [Issue env2 (RequestCode.mk (str co2) (str u2) (str e))] renv);
      [repeat constructor|assumption|assumption].
  - intros Ht.
    apply (p000_redeem_after_issue env2 co2 u2 e _ Hco2 Hu2 He Hi2 [] renv);
      [constructor|assumption|assumption].
  - do 2 eexists. rewrite !p001_issue_rows by assumption.
    rewrite <- app_assoc. reflexivity.
  - intros Ht.
    apply (p001_redeem_after_issue env1 co1 u1 e w Hco1 Hu1 He Hi1
             [Issue env2 (RequestCode.mk (str co2) (str u2) (str e))] renv);
      [repeat constructor|assumption|assumption].
  - intros Ht.
    apply (p001_redeem_after_issue env2 co2 u2 e _ Hco2 Hu2 He Hi2 [] renv);
      [constructor|assumption|assumption].
Qed.

Lemma issuance_is_additive_witness :
  insert_failed sample_issue = false /\ insert_failed sample_second_issue = false /\
  issue_now sample_issue > redeem_now (mkRedeemEnv 100000 false) - Part000.TTL /\
  Valid (fst (Part000.verify_code (mkRedeemEnv 100000 false)
                (VerifyCode.mk (str "ALICE@Example.com")
                               (str (generateCode sample_entropy)))
                (snd (Part000.request_code sample_second_issue sample_body
                        (snd (Part000.request_code sample_issue sample_body initial)))))).
Proof.
  assert (H1 : issue_now sample_issue >
               redeem_now (mkRedeemEnv 100000 false) - Part000.TTL)
    by (unfold Part000.TTL; simpl; lia).
  split; [reflexivity|]. split; [reflexivity|]. split; [exact H1|].
  exact (proj1 (proj2 (proj1 (issuance_is_additive sample_issue sample_second_issue
    "Acme" "alice" "Acme" "alice" "ALICE@Example.com" initial
    (mkRedeemEnv 100000 false)
    eq_refl eq_refl eq_refl eq_refl eq_refl eq_refl eq_refl eq_refl))) H1).
Defined.

(** ** Exceptions *)

(** X6.  [/request-code] and [/verify-code] of [part_001] answer every
    body, whatever the database and the transport do; [/request-code] of
    [part_000] answers every body it turns away and every accepted one
    whose INSERT completes.  [/verify-code] of [part_000] lets a TypeError
    escape exactly when [email] is not a string, and answers otherwise. *)
Theorem only_unguarded_redeem_throws :
  forall (ienv : issue_env) (renv : redeem_env) (ib : RequestCode.body)
         (rb : VerifyCode.body) (w : world),
    ((accepted ib = true -> insert_failed ienv = false) ->
     exists r, fst (Part000.request_code ienv ib w) = Responded r) /\
    (exists r, fst (Part001.request_code ienv ib w) = Responded r) /\
    (exists r, fst (Part001.verify_code renv rb w) = Responded r) /\
    (fst (Part000.verify_code renv rb w) = Uncaught TypeError <->
     forall s, VerifyCode.email rb <> str s) /\
    ((exists r, fst (Part000.verify_code renv rb w) = Responded r) <->
     exists s, VerifyCode.email rb = str s).
Proof.
  intros ienv renv ib rb w. split; [|split; [|split; [|split]]].
  - intros _. issue_cases ib A.
    + rewrite p000_issue_response by assumption. eexists; reflexivity.
    + rewrite p000_request_code_guard by assumption. eexists; reflexivity.
  - issue_cases ib A.
    + rewrite p001_issue_response by assumption. eexists; reflexivity.
    + rewrite p001_request_code_guard by assumption. eexists; reflexivity.
  - unfold Part001.verify_code.
    destruct (truthy (VerifyCode.email rb)) eqn:E; simpl; [|eexists; reflexivity].
    destruct (truthy (VerifyCode.code rb)) eqn:C; simpl; [|eexists; reflexivity].
    apply truthy_str in E. destruct E as [s [-> _]]. simpl.
    destruct (select_failed renv); simpl; [eexists; reflexivity|].
    destruct (select_code _ _ _ _); simpl; eexists; reflexivity.
  - unfold Part000.verify_code.
    destruct (VerifyCode.email rb) as [| |s]; simpl.
    + split; [intros _ s; discriminate|reflexivity].
    + split; [intros _ s; discriminate|reflexivity].
    + split.
      * destruct (select_failed renv); [discriminate|].
        destruct (select_code _ _ _ _); discriminate.
      * intros H. exfalso. now apply (H s).
  - unfold Part000.verify_code.
    destruct (VerifyCode.email rb) as [| |s]; simpl.
    + split; intros [x H]; discriminate.
    + split; intros [x H]; discriminate.
    + split; [intros _; eexists; reflexivity|intros _].
      destruct (select_failed renv); simpl; [eexists; reflexivity|].
      destruct (select_code _ _ _ _); simpl; eexists; reflexivity.
Qed.

Lemma only_unguarded_redeem_throws_witness :
  (accepted sample_body = true -> insert_failed sample_issue = false) /\
  exists r, fst (Part000.request_code sample_issue sample_body sample_world) =
            Responded r.
Proof.
  assert (H : accepted sample_body = true -> insert_failed sample_issue = false)
    by (intros _; reflexivity).
  split; [exact H|].
  exact (proj1 (only_unguarded_redeem_throws sample_issue (mkRedeemEnv 0 false)
                  sample_body sample_redeem_body sample_world) H).
Defined.

(** ** Stored codes against mails *)

Lemma p001_step_counts (ev : event) (w : world) :
  sqlite_sequence (db w) = Z.of_nat (List.length (sent w)) ->
  sqlite_sequence (db (Part001.step ev w)) = Z.of_nat (List.length (sent (Part001.step ev w))).
Proof.
  intros H. destruct ev as [env b|env b|now f|env]; simpl.
  - issue_cases b A.
    + destruct (insert_failed env) eqn:I.
      * now rewrite p001_issue_sent_on_insert_failure.
      * destruct (p001_issue_mail env co u e w Hco Hu He I) as [m [Hm _]].
        rewrite p001_issue_db by assumption. rewrite I, Hm.
        cbn [sqlite_sequence]. rewrite length_app. simpl. lia.
    + now rewrite p001_request_code_guard.
  - now rewrite p001_verify_code_frame.
  - destruct f; exact H.
  - exact H.
Qed.

Lemma p000_step_counts (ev : event) (w : world) :
  sqlite_sequence (db w) <= Z.of_nat (List.length (sent w)) ->
  sqlite_sequence (db (Part000.step ev w)) <=
  Z.of_nat (List.length (sent (Part000.step ev w))).
Proof.
  intros H. destruct ev as [env b|env b|now f|env]; simpl.
  - issue_cases b A.
    + destruct (p000_issue_mail env co u e w Hco Hu He) as [m [Hm _]].
      rewrite p000_issue_db by assumption. rewrite Hm, length_app. simpl.
      destruct (insert_failed env); cbn [sqlite_sequence]; lia.
    + now rewrite p000_request_code_guard.
  - now rewrite p000_verify_code_frame.
  - destruct f; exact H.
  - exact H.
Qed.

(** X7.  In every state that [part_001] reaches from the empty one, the
    messages handed to the transport are as many as the codes ever
    stored: no mail goes out for a code that was not stored, and none is
    stored without its mail being handed over.  [part_000] only keeps the
    stored codes from outnumbering the mails. *)
Theorem mails_match_stored_codes :
  forall (evs : list event),
    sqlite_sequence (db (Part001.run evs initial)) =
      Z.of_nat (List.length (sent (Part001.run evs initial))) /\
    sqlite_sequence (db (Part000.run evs initial)) <=
      Z.of_nat (List.length (sent (Part000.run evs initial))).
Proof.
  intros evs. split.
  - assert (G : forall w, sqlite_sequence (db w) = Z.of_nat (List.length (sent w)) ->
                sqlite_sequence (db (Part001.run evs w)) =
                Z.of_nat (List.length (sent (Part001.run evs w)))).
    { induction evs as [|ev evs IH]; intros w H; simpl; [exact H|].
      apply IH. now apply p001_step_counts. }
    now apply G.
  - assert (G : forall w, sqlite_sequence (db w) <= Z.of_nat (List.length (sent w)) ->
                sqlite_sequence (db (Part000.run evs w)) <=
                Z.of_nat (List.length (sent (Part000.run evs w)))).
    { induction evs as [|ev evs IH]; intros w H; simpl; [exact H|].
      apply IH. now apply p000_step_counts. }
    apply G. simpl. lia.
Qed.

(** ** Row identifiers *)

Lemma ids_increase_weaken (lo lo' : Z) (l : list row) :
  lo' <= lo -> ids_increase lo l -> ids_increase lo' l.
Proof. destruct l as [|r l]; simpl; [auto|]. intros H [H1 H2]. split; [lia|exact H2]. Qed.

Lemma ids_increase_above (lo : Z) (l : list row) (r : row) :
  ids_increase lo l -> In r l -> lo < id r.
Proof.
  revert lo. induction l as [|x l IH]; intros lo H Hin; [destruct Hin|].
  destruct H as [H1 H2]. destruct Hin as [<-|Hin]; [exact H1|].
  specialize (IH _ H2 Hin). lia.
Qed.

Lemma ids_increase_filter (p : row -> bool) (lo : Z) (l : list row) :
  ids_increase lo l -> ids_increase lo (filter p l).
Proof.
  revert lo. induction l as [|x l IH]; intros lo H; simpl; [exact I|].
  destruct H as [H1 H2]. destruct (p x); simpl.
  - split; [exact H1|now apply IH].
  - apply IH. apply ids_increase_weaken with (lo := id x); [lia|exact H2].
Qed.

Lemma ids_increase_append (lo : Z) (l : list row) (r : row) :
  ids_increase lo l -> lo < id r -> (forall x, In x l -> id x < id r) ->
  ids_increase lo (l ++ [r]).
Proof.
  revert lo. induction l as [|x l IH]; intros lo H Hlo Hall; simpl.
  - split; [exact Hlo|exact I].
  - destruct H as [H1 H2]. split; [exact H1|].
    apply IH; [exact H2|apply Hall; now left|].
    intros y Hy. apply Hall. now right.
Qed.

Lemma ids_increase_NoDup (lo : Z) (l : list row) :
  ids_increase lo l -> NoDup (map id l).
Proof.
  revert lo. induction l as [|x l IH]; intros lo H; simpl; [constructor|].
  destruct H as [H1 H2]. constructor; [|now apply IH with (lo := id x)].
  intros Hin. apply in_map_iff in Hin. destruct Hin as [y [Hy Hin]].
  pose proof (ids_increase_above _ _ _ H2 Hin). lia.
Qed.

Lemma ids_in_order_insert (c u e k : sqltext) (t : Z) (d : database) :
  ids_in_order d -> ids_in_order (insert_code c u e k t d).
Proof.
  intros [Hpos [Hinc Hle]]. rewrite Forall_forall in Hle.
  unfold ids_in_order, insert_code; simpl. split; [lia|split].
  - apply ids_increase_append; [exact Hinc|simpl; lia|].
    intros x Hx. simpl. specialize (Hle x Hx). lia.
  - apply Forall_app. split.
    + rewrite Forall_forall. intros x Hx. specialize (Hle x Hx). lia.
    + constructor; [simpl; lia|constructor].
Qed.

Lemma ids_in_order_delete (cutoff : Z) (d : database) :
  ids_in_order d -> ids_in_order (delete_older cutoff d).
Proof.
  intros [Hpos [Hinc Hle]]. unfold ids_in_order, delete_older; simpl.
  split; [exact Hpos|split].
  - now apply ids_increase_filter.
  - rewrite Forall_forall in *. intros x Hx. apply filter_In in Hx. now apply Hle.
Qed.

Lemma p000_step_ids (ev : event) (w : world) :
  ids_in_order (db w) ->
  ids_in_order (db (Part000.step ev w)) /\
  sqlite_sequence (db w) <= sqlite_sequence (db (Part000.step ev w)).
Proof.
  intros H. destruct ev as [env b|env b|now f|env]; simpl.
  - issue_cases b A.
    + rewrite p000_issue_db by assumption.
      destruct (insert_failed env); [split; [exact H|lia]|].
      rewrite issued_row_appended. split; [now apply ids_in_order_insert|].
      simpl. lia.
    + rewrite p000_request_code_guard by assumption. split; [exact H|simpl; lia].
  - rewrite p000_verify_code_frame. split; [exact H|lia].
  - destruct f; simpl; (split; [|lia]); [exact H|now apply ids_in_order_delete].
  - split; [exact H|lia].
Qed.

Lemma p001_step_ids (ev : event) (w : world) :
  ids_in_order (db w) ->
  ids_in_order (db (Part001.step ev w)) /\
  sqlite_sequence (db w) <= sqlite_sequence (db (Part001.step ev w)).
Proof.
  intros H. destruct ev as [env b|env b|now f|env]; simpl.
  - issue_cases b A.
    + rewrite p001_issue_db by assumption.
      destruct (insert_failed env); [split; [exact H|lia]|].
      rewrite issued_row_appended. split; [now apply ids_in_order_insert|].
      simpl. lia.
    + rewrite p001_request_code_guard by assumption. split; [exact H|simpl; lia].
  - rewrite p001_verify_code_frame. split; [exact H|lia].
  - destruct f; simpl; (split; [|lia]); [exact H|now apply ids_in_order_delete].
  - split; [exact H|lia].
Qed.

Lemma p000_run_ids (evs : list event) (w : world) :
  ids_in_order (db w) ->
  ids_in_order (db (Part000.run evs w)) /\
  sqlite_sequence (db w) <= sqlite_sequence (db (Part000.run evs w)).
Proof.
  revert w. induction evs as [|ev evs IH]; intros w H; simpl; [split; [exact H|lia]|].
  destruct (p000_step_ids ev w H) as [H1 H2].
  destruct (IH _ H1) as [H3 H4]. split; [exact H3|lia].
Qed.

Lemma p001_run_ids (evs : list event) (w : world) :
  ids_in_order (db w) ->
  ids_in_order (db (Part001.run evs w)) /\
  sqlite_sequence (db w) <= sqlite_sequence (db (Part001.run evs w)).
Proof.
  revert w. induction evs as [|ev evs IH]; intros w H; simpl; [split; [exact H|lia]|].
  destruct (p001_step_ids ev w H) as [H1 H2].
  destruct (IH _ H1) as [H3 H4]. split; [exact H3|lia].
Qed.

Lemma initial_ids_in_order : ids_in_order (db initial).
Proof. split; [simpl; lia|split; [exact I|constructor]]. Qed.

Lemma p000_step_new_rows (ev : event) (w : world) (r : row) :
  In r (verification_codes (db (Part000.step ev w))) ->
  In r (verification_codes (db w)) \/ sqlite_sequence (db w) < id r.
Proof.
  destruct ev as [env b|env b|now f|env]; simpl.
  - issue_cases b A.
    + rewrite p000_issue_db by assumption.
      destruct (insert_failed env); [now left|].
      simpl. intros Hin. apply in_app_or in Hin.
      destruct Hin as [Hin|[<-|[]]]; [now left|right; simpl; lia].
    + rewrite p000_request_code_guard by assumption. now left.
  - rewrite p000_verify_code_frame. now left.
  - destruct f; simpl; [now left|].
    intros Hin. apply delete_older_In in Hin. left. apply Hin.
  - now left.
Qed.

Lemma p001_step_new_rows (ev : event) (w : world) (r : row) :
  In r (verification_codes (db (Part001.step ev w))) ->
  In r (verification_codes (db w)) \/ sqlite_sequence (db w) < id r.
Proof.
  destruct ev as [env b|env b|now f|env]; simpl.
  - issue_cases b A.
    + rewrite p001_issue_db by assumption.
      destruct (insert_failed env); [now left|].
      simpl. intros Hin. apply in_app_or in Hin.
      destruct Hin as [Hin|[<-|[]]]; [now left|right; simpl; lia].
    + rewrite p001_request_code_guard by assumption. now left.
  - rewrite p001_verify_code_frame. now left.
  - destruct f; simpl; [now left|].
    intros Hin. apply delete_older_In in Hin. left. apply Hin.
  - now left.
Qed.

(** A row of a later table was there before or has an id above the
    sequence of before. *)
Lemma p000_run_new_rows (evs : list event) (w : world) (r : row) :
  ids_in_order (db w) ->
  In r (verification_codes (db (Part000.run evs w))) ->
  In r (verification_codes (db w)) \/ sqlite_sequence (db w) < id r.
Proof.
  revert w. induction evs as [|ev evs IH]; intros w Hw Hin; simpl in Hin; [now left|].
  destruct (p000_step_ids ev w Hw) as [Hw' Hle].
  destruct (IH _ Hw' Hin) as [H|H]; [exact (p000_step_new_rows ev w r H)|right; lia].
Qed.

Lemma p001_run_new_rows (evs : list event) (w : world) (r : row) :
  ids_in_order (db w) ->
  In r (verification_codes (db (Part001.run evs w))) ->
  In r (verification_codes (db w)) \/ sqlite_sequence (db w) < id r.
Proof.
  revert w. induction evs as [|ev evs IH]; intros w Hw Hin; simpl in Hin; [now left|].
  destruct (p001_step_ids ev w Hw) as [Hw' Hle].
  destruct (IH _ Hw' Hin) as [H|H]; [exact (p001_step_new_rows ev w r H)|right; lia].
Qed.

Lemma same_id_same_row (l : list row) (a b : row) :
  NoDup (map id l) -> In a l -> In b l -> id a = id b -> a = b.
Proof.
  induction l as [|x l IH]; intros Hnd Ha Hb Hid; [destruct Ha|].
  simpl in Hnd. inversion Hnd as [|? ? Hx Hl]; subst.
  destruct Ha as [<-|Ha], Hb as [<-|Hb]; try reflexivity.
  - exfalso. apply Hx. rewrite Hid. now apply in_map.
  - exfalso. apply Hx. rewrite <- Hid. now apply in_map.
  - now apply IH.
Qed.

(** X8.  An id is never handed out twice.  In every state reached from
    the empty table the ids of the rows are positive and strictly
    increasing in table order, hence pairwise distinct, and none exceeds
    the sequence.  As the server runs on the sequence never goes down,
    and every row that comes into the table gets an id above the
    sequence of before, hence above every id handed out so far, swept or
    not: a row of a later table that has the id of a row of now is that
    very row. *)
Theorem ids_are_never_reused :
  forall (evs more : list event),
    (let w := Part000.run evs initial in
     ids_increase 0 (verification_codes (db w)) /\
     NoDup (map id (verification_codes (db w))) /\
     Forall (fun r => id r <= sqlite_sequence (db w)) (verification_codes (db w)) /\
     sqlite_sequence (db w) <= sqlite_sequence (db (Part000.run more w)) /\
     (forall r, In r (verification_codes (db (Part000.run more w))) ->
        In r (verification_codes (db w)) \/ sqlite_sequence (db w) < id r) /\
     (forall r0 r, In r0 (verification_codes (db w)) ->
        In r (verification_codes (db (Part000.run more w))) ->
        id r = id r0 -> r = r0)) /\
    (let w := Part001.run evs initial in
     ids_increase 0 (verification_codes (db w)) /\
     NoDup (map id (verification_codes (db w))) /\
     Forall (fun r => id r <= sqlite_sequence (db w)) (verification_codes (db w)) /\
     sqlite_sequence (db w) <= sqlite_sequence (db (Part001.run more w)) /\
     (forall r, In r (verification_codes (db (Part001.run more w))) ->
        In r (verification_codes (db w)) \/ sqlite_sequence (db w) < id r) /\
     (forall r0 r, In r0 (verification_codes (db w)) ->
        In r (verification_codes (db (Part001.run more w))) ->
        id r = id r0 -> r = r0)).
Proof.
  intros evs more. split; cbv zeta.
  - destruct (p000_run_ids evs initial initial_ids_in_order) as [[Hp [Hi Hf]] _].
    assert (Hw : ids_in_order (db (Part000.run evs initial))) by now split.
    pose proof (ids_increase_NoDup 0 _ Hi) as Hnd.
    split; [exact Hi|]. split; [exact Hnd|]. split; [exact Hf|].
    split; [now apply p000_run_ids|]. split.
    + intros r. now apply p000_run_new_rows.
    + intros r0 r Hr0 Hr Hid.
      destruct (p000_run_new_rows more _ r Hw Hr) as [Hin|Hgt].
      * now apply same_id_same_row with (l := verification_codes
                                               (db (Part000.run evs initial))).
      * exfalso. rewrite Forall_forall in Hf. specialize (Hf r0 Hr0). lia.
  - destruct (p001_run_ids evs initial initial_ids_in_order) as [[Hp [Hi Hf]] _].
    assert (Hw : ids_in_order (db (Part001.run evs initial))) by now split.
    pose proof (ids_increase_NoDup 0 _ Hi) as Hnd.
    split; [exact Hi|]. split; [exact Hnd|]. split; [exact Hf|].
    split; [now apply p001_run_ids|]. split.
    + intros r. now apply p001_run_new_rows.
    + intros r0 r Hr0 Hr Hid.
      destruct (p001_run_new_rows more _ r Hw Hr) as [Hin|Hgt].
      * now apply same_id_same_row with (l := verification_codes
                                               (db (Part001.run evs initial))).
      * exfalso. rewrite Forall_forall in Hf. specialize (Hf r0 Hr0). lia.
Qed.

(** The first code is swept, a second one issued: it gets id 2, not the
    freed id 1. *)
Lemma ids_are_never_reused_witness :
  In sample_row
     (verification_codes (db (Part001.run [Issue sample_issue sample_body] initial))) /\
  map id (verification_codes
            (db (Part001.run [Sweep 400000 false; Issue sample_second_issue sample_body]
                   (Part001.run [Issue sample_issue sample_body] initial)))) = [2] /\
  forall r,
    In r (verification_codes
            (db (Part001.run [Sweep 400000 false; Issue sample_second_issue sample_body]
                   (Part001.run [Issue sample_issue sample_body] initial)))) ->
    id r = id sample_row -> r = sample_row.
Proof.
  assert (H : In sample_row
     (verification_codes (db (Part001.run [Issue sample_issue sample_body] initial))))
    by (now left).
  split; [exact H|]. split; [reflexivity|].
  intros r Hr Hid.
  destruct (ids_are_never_reused [Issue sample_issue sample_body]
              [Sweep 400000 false; Issue sample_second_issue sample_body])
    as [_ [_ [_ [_ [_ [_ Hsame]]]]]].
  exact (Hsame sample_row r H Hr Hid).
Defined.

(** ** The email is compared without regard to case *)

Lemma lower_char_idempotent (c : ascii) : lower_char (lower_char c) = lower_char c.
Proof. destruct c as [[] [] [] [] [] [] [] []]; reflexivity. Qed.

Lemma toLowerCase_idempotent (s : string) : toLowerCase (toLowerCase s) = toLowerCase s.
Proof.
  unfold toLowerCase. induction s as [|c s IH]; simpl; [reflexivity|].
  now rewrite lower_char_idempotent, IH.
Qed.

Lemma toLowerCase_same_emptiness (a b : string) :
  toLowerCase a = toLowerCase b -> (a =? "")%string = (b =? "")%string.
Proof. destruct a, b; simpl; intros H; try reflexivity; discriminate. Qed.

(** X9.  Both handlers use the email through its lower-case form only:
    two requests whose emails differ in the case of letters and in
    nothing else get the same answer and leave the same state.  So the
    address can be presented as it was typed at issuance or as it is
    stored. *)
Theorem email_case_is_ignored :
  forall (e1 e2 : string),
    toLowerCase e1 = toLowerCase e2 ->
    (forall (env : redeem_env) (k : value) (w : world),
        Part000.verify_code env (VerifyCode.mk (str e1) k) w =
          Part000.verify_code env (VerifyCode.mk (str e2) k) w /\
        Part001.verify_code env (VerifyCode.mk (str e1) k) w =
          Part001.verify_code env (VerifyCode.mk (str e2) k) w) /\
    (forall (env : issue_env) (co u : value) (w : world),
        Part000.request_code env (RequestCode.mk co u (str e1)) w =
          Part000.request_code env (RequestCode.mk co u (str e2)) w /\
        Part001.request_code env (RequestCode.mk co u (str e1)) w =
          Part001.request_code env (RequestCode.mk co u (str e2)) w).
Proof.
  intros e1 e2 H. pose proof (toLowerCase_same_emptiness _ _ H) as Hempty.
  split.
  - intros env k w. split.
    + unfold Part000.verify_code.
      cbn [VerifyCode.email VerifyCode.code call_toLowerCase]. now rewrite H.
    + unfold Part001.verify_code.
      cbn [VerifyCode.email VerifyCode.code call_toLowerCase truthy].
      now rewrite H, Hempty.
  - intros env co u w. split.
    + unfold Part000.request_code.
      cbn [RequestCode.email RequestCode.company RequestCode.username
           call_toLowerCase truthy].
      now rewrite H, Hempty.
    + unfold Part001.request_code.
      cbn [RequestCode.email RequestCode.company RequestCode.username
           call_toLowerCase truthy].
      now rewrite H, Hempty.
Qed.

Lemma email_case_is_ignored_witness :
  toLowerCase "ALICE@Example.com" = toLowerCase "alice@example.com" /\
  Part001.verify_code (mkRedeemEnv 60000 false)
    (VerifyCode.mk (str "ALICE@Example.com") (str "0ABCFF")) sample_world =
  Part001.verify_code (mkRedeemEnv 60000 false)
    (VerifyCode.mk (str "alice@example.com") (str "0ABCFF")) sample_world.
Proof.
  split; [reflexivity|].
  exact (proj2 (proj1 (email_case_is_ignored "ALICE@Example.com" "alice@example.com"
                         eq_refl) (mkRedeemEnv 60000 false) (str "0ABCFF")
                  sample_world)).
Defined.

(** ** The retry loop for any budget *)

Lemma attempt_last (verify_ok : nat -> bool) (delay n : Z) (k : nat) :
  n <= 0 ->
  Part000.attempt verify_ok delay n k =
  (mark (verify_ok k), [Verify (verify_ok k)]).
Proof.
  intros H. rewrite attempt_step.
  destruct (verify_ok k); [reflexivity|].
  apply Z.leb_le in H. now rewrite H.
Qed.

(** X10.  [verifySMTPWithRetry(retries, delay)] for an integer [retries]
    that a double holds exactly, so that counting down by one is exact:
    it reports "ok" exactly when one of the handshakes 0..retries
    succeeds, stops at the first success, and sets a timer of [delay]
    between two handshakes and nowhere else.  With [retries] at or below
    zero it makes a single handshake and sets no timer. *)
Theorem retry_loop_for_any_budget :
  forall (verify_ok : nat -> bool) (retries delay : Z),
    - 9007199254740992 <= retries <= 9007199254740992 ->
    let budget := S (Z.to_nat retries) in
    let made := handshakes verify_ok 0 budget in
    Part000.verifySMTPWithRetry verify_ok retries delay =
      (mark (existsb verify_ok (seq 0 budget)),
       intersperse (SetTimeout delay)
         (map (fun i => Verify (verify_ok i)) (seq 0 made))) /\
    (1 <= made <= budget)%nat /\
    (forall i, (S i < made)%nat -> verify_ok i = false) /\
    (retries <= 0 ->
     Part000.verifySMTPWithRetry verify_ok retries delay =
       (mark (verify_ok 0%nat), [Verify (verify_ok 0%nat)])).
Proof.
  intros verify_ok retries delay _ budget made. subst budget made.
  split; [|split; [|split]].
  - unfold Part000.verifySMTPWithRetry.
    destruct (Z_le_gt_dec 0 retries) as [Hpos|Hneg].
    + rewrite (attempt_spec verify_ok delay (Z.to_nat retries) retries 0)
        by (now rewrite Z2Nat.id).
      now destruct (existsb verify_ok (seq 0 (S (Z.to_nat retries)))).
    + rewrite attempt_last by lia.
      replace (Z.to_nat retries) with 0%nat by lia. simpl.
      destruct (verify_ok 0%nat) eqn:E; simpl; now rewrite ?E.
  - split; [|apply handshakes_bound].
    simpl. destruct (verify_ok 0%nat); lia.
  - intros i Hi.
    apply (handshakes_short_circuit verify_ok (S (Z.to_nat retries)) 0 i); [lia|].
    exact Hi.
  - intros H. unfold Part000.verifySMTPWithRetry. now apply attempt_last.
Qed.

Lemma retry_loop_for_any_budget_witness :
  - 9007199254740992 <= 2 <= 9007199254740992 /\
  Part000.verifySMTPWithRetry (fun k => Nat.eqb k 2) 2 250 =
    ("ok", [Verify false; SetTimeout 250; Verify false; SetTimeout 250; Verify true]).
Proof.
  assert (H : - 9007199254740992 <= 2 <= 9007199254740992) by lia.
  split; [exact H|].
  exact (proj1 (retry_loop_for_any_budget (fun k => Nat.eqb k 2) 2 250 H)).
Defined.

(** ** What goes into the message unescaped *)

Lemma p000_issue_mail_fields (env : issue_env) (co u e : string) (w : world) :
  (co =? "")%string = false -> (u =? "")%string = false ->
  (e =? "")%string = false ->
  exists m,
    sent (snd (Part000.request_code env
                 (RequestCode.mk (str co) (str u) (str e)) w)) = (sent w ++ [m])%list /\
    occurs co (html m) /\ occurs u (html m) /\
    occurs co (subject m) /\ occurs co (from m) /\
    occurs (template (GMAIL_USER env)) (from m).
Proof.
  intros Hco Hu He. unfold Part000.request_code.
  rewrite guard_of_accepted, (accepted_mk co u e Hco Hu He).
  cbn [negb RequestCode.email RequestCode.company RequestCode.username
       call_toLowerCase bind template].
  destruct (sendMail_failed env); cbn [snd sent]; eexists;
    (split; [reflexivity|]);
    cbn [html subject from String.concat]; repeat split; find_occurrence.
Qed.

Lemma p001_issue_mail_fields (env : issue_env) (co u e : string) (w : world) :
  (co =? "")%string = false -> (u =? "")%string = false ->
  (e =? "")%string = false ->
  insert_failed env = false ->
  exists m,
    sent (snd (Part001.request_code env
                 (RequestCode.mk (str co) (str u) (str e)) w)) = (sent w ++ [m])%list /\
    occurs co (html m) /\ occurs u (html m) /\
    occurs co (subject m) /\ occurs co (from m) /\
    occurs (template (GMAIL_USER env)) (from m).
Proof.
  intros Hco Hu He Hins. unfold Part001.request_code.
  rewrite guard_of_accepted, (accepted_mk co u e Hco Hu He).
  cbn [negb RequestCode.email RequestCode.company RequestCode.username
       call_toLowerCase bind template].
  rewrite Hins.
  destruct (sendMail_failed env); cbn [snd sent]; eexists;
    (split; [reflexivity|]);
    cbn [html subject from String.concat]; repeat split; find_occurrence.
Qed.

(** X11.  The company and the user name of an accepted request go into
    the message as they came, character for character: both into the
    HTML body, the company also into the subject and the sender, next to
    the configured address.  Nothing is escaped on the way. *)
Theorem message_carries_fields_verbatim :
  forall (env : issue_env) (co u e : string) (w : world),
    (co =? "")%string = false -> (u =? "")%string = false ->
    (e =? "")%string = false ->
    (exists m,
        sent (snd (Part000.request_code env
                     (RequestCode.mk (str co) (str u) (str e)) w)) = (sent w ++ [m])%list /\
        occurs co (html m) /\ occurs u (html m) /\
        occurs co (subject m) /\ occurs co (from m) /\
        occurs (template (GMAIL_USER env)) (from m)) /\
    (insert_failed env = false ->
     exists m,
        sent (snd (Part001.request_code env
                     (RequestCode.mk (str co) (str u) (str e)) w)) = (sent w ++ [m])%list /\
        occurs co (html m) /\ occurs u (html m) /\
        occurs co (subject m) /\ occurs co (from m) /\
        occurs (template (GMAIL_USER env)) (from m)).
Proof.
  intros env co u e w Hco Hu He. split.
  - now apply p000_issue_mail_fields.
  - intros Hins. now apply p001_issue_mail_fields.
Qed.

Lemma message_carries_fields_verbatim_witness :
  exists m,
    sent (snd (Part000.request_code sample_issue
                 (RequestCode.mk (str "Acme") (str "<b>alice</b>")
                    (str "ALICE@Example.com")) initial)) = ([] ++ [m])%list /\
    occurs "Acme" (html m) /\ occurs "<b>alice</b>" (html m) /\
    occurs "Acme" (subject m) /\ occurs "Acme" (from m) /\
    occurs "noreply@example.com" (from m).
Proof.
  exact (proj1 (message_carries_fields_verbatim sample_issue "Acme" "<b>alice</b>"
                  "ALICE@Example.com" initial eq_refl eq_refl eq_refl)).
Defined.

(** ** Validity over time *)

Lemma select_code_earlier (e k : sqltext) (nb1 nb2 : Z) (d : database) (r : row) :
  nb1 <= nb2 -> select_code e k nb2 d = Some r ->
  exists r', select_code e k nb1 d = Some r'.
Proof.
  intros Hle H. apply select_code_some. exists r.
  unfold select_code in H. apply find_some in H. destruct H as [Hin Hm].
  split; [exact Hin|]. unfold matches in *.
  rewrite !andb_true_iff in *. destruct Hm as [[H1 H2] H3].
  repeat split; try assumption. apply Z.gtb_gt in H3. apply Z.gtb_gt. lia.
Qed.

(** X12.  In one and the same state validity only runs out: a request
    answered Valid at some instant is answered Valid at every earlier
    instant at which the lookup completes, so one found without a live
    record stays so at every later instant until a new code is issued. *)
Theorem validity_only_runs_out :
  forall (env1 env2 : redeem_env) (b : VerifyCode.body) (w : world),
    redeem_now env1 <= redeem_now env2 ->
    select_failed env1 = false ->
    (Valid (fst (Part000.verify_code env2 b w)) ->
     Valid (fst (Part000.verify_code env1 b w))) /\
    (Valid (fst (Part001.verify_code env2 b w)) ->
     Valid (fst (Part001.verify_code env1 b w))).
Proof.
  intros env1 env2 b w Hle Hsel. split.
  - unfold Part000.verify_code. rewrite Hsel.
    destruct (call_toLowerCase (VerifyCode.email b)) as [e|x];
      [|intros [m Hm]; discriminate].
    destruct (select_failed env2); [intros [m Hm]; discriminate|].
    destruct (select_code _ _ (redeem_now env2 - _) _) as [r|] eqn:E;
      [|intros [m Hm]; discriminate].
    intros _.
    assert (Hnb : redeem_now env1 - 2 * 60 * 1000 <= redeem_now env2 - 2 * 60 * 1000)
      by lia.
    destruct (select_code_earlier _ _ _ _ _ _ Hnb E) as [r' ->].
    now eexists.
  - unfold Part001.verify_code. rewrite Hsel.
    destruct (negb (truthy (VerifyCode.email b)) || negb (truthy (VerifyCode.code b)));
      [intros [m Hm]; discriminate|].
    destruct (call_toLowerCase (VerifyCode.email b)) as [e|x];
      [|intros [m Hm]; discriminate].
    destruct (select_failed env2); [intros [m Hm]; discriminate|].
    destruct (select_code _ _ (redeem_now env2 - _) _) as [r|] eqn:E;
      [|intros [m Hm]; discriminate].
    intros _.
    assert (Hnb : redeem_now env1 - 5 * 60 * 1000 <= redeem_now env2 - 5 * 60 * 1000)
      by lia.
    destruct (select_code_earlier _ _ _ _ _ _ Hnb E) as [r' ->].
    now eexists.
Qed.

Lemma validity_only_runs_out_witness :
  redeem_now (mkRedeemEnv 2000 false) <= redeem_now (mkRedeemEnv 60000 false) /\
  select_failed (mkRedeemEnv 2000 false) = false /\
  Valid (fst (Part000.verify_code (mkRedeemEnv 2000 false) sample_redeem_body
                sample_world)).
Proof.
  assert (H : redeem_now (mkRedeemEnv 2000 false) <=
              redeem_now (mkRedeemEnv 60000 false)) by (simpl; lia).
  split; [exact H|]. split; [reflexivity|].
  apply (proj1 (validity_only_runs_out (mkRedeemEnv 2000 false)
                  (mkRedeemEnv 60000 false) sample_redeem_body sample_world
                  H eq_refl)).
  now eexists.
Defined.

(** * The notification router *)

Lemma notification_guard (b : Notification.request) :
  negb (truthy (Notification.to b)) || negb (truthy (Notification.subject b))
    || negb (truthy (Notification.body b)) = negb (notification_complete b).
Proof.
  unfold notification_complete.
  now destruct (truthy (Notification.to b)), (truthy (Notification.subject b)),
    (truthy (Notification.body b)).
Qed.

(** X13.  [/send-notification] hands a message to the transport exactly
    when [to], [subject] and [body] are all non-empty: then the message
    is addressed and titled as the request says and carries the body,
    unescaped, in its HTML, and the answer is 200 when the transport
    accepts it and 500 when it does not.  Otherwise the answer is 400
    and nothing is handed over. *)
Theorem notification_sent_iff_complete :
  forall (e : Notification.env) (b : Notification.request)
         (outbox : list Notification.message),
    (notification_complete b = true ->
     exists m,
       snd (Notification.send_notification e b outbox) = (outbox ++ [m])%list /\
       Notification.msg_to m = Notification.to b /\
       Notification.msg_subject m = Notification.subject b /\
       occurs (template (Notification.body b)) (Notification.msg_html m) /\
       (forall r, Notification.sendMail e = Delivered r ->
          reply_status (fst (Notification.send_notification e b outbox)) = 200) /\
       (forall err, Notification.sendMail e = Undelivered err ->
          fst (Notification.send_notification e b outbox) =
          mkReply 500 (JVObject
            [("message", JVString "Failed to send email"); ("error", err)]))) /\
    (notification_complete b = false ->
     Notification.send_notification e b outbox =
     (mkReply 400 (JVObject
        [("message", JVString "Missing required fields: to, subject, body")]),
      outbox)).
Proof.
  intros e b outbox. unfold Notification.send_notification.
  rewrite notification_guard. split; intros H; rewrite H; cbn [negb]; [|reflexivity].
  destruct (Notification.sendMail e) as [r|err] eqn:E; cbn [snd fst];
    eexists; (split; [reflexivity|]);
    cbn [Notification.msg_to Notification.msg_subject Notification.msg_html];
    (split; [reflexivity|]); (split; [reflexivity|]);
    (split; [unfold Notification.styledTemplate; cbn [String.concat];
             find_occurrence|]);
    split; intros x Hx; try discriminate Hx; try reflexivity.
  now injection Hx as <-.
Qed.

Lemma notification_sent_iff_complete_witness :
  notification_complete sample_notification = true /\
  exists m,
    snd (Notification.send_notification sample_notify_env sample_notification []) =
      ([] ++ [m])%list /\
    Notification.msg_to m = str "bob@example.com" /\
    Notification.msg_subject m = str "Hello" /\
    occurs "<i>Welcome</i>" (Notification.msg_html m) /\
    (forall r, Notification.sendMail sample_notify_env = Delivered r ->
       reply_status (fst (Notification.send_notification sample_notify_env
                            sample_notification [])) = 200) /\
    (forall err, Notification.sendMail sample_notify_env = Undelivered err ->
       fst (Notification.send_notification sample_notify_env sample_notification []) =
       mkReply 500 (JVObject
         [("message", JVString "Failed to send email"); ("error", err)])).
Proof.
  split; [reflexivity|].
  exact (proj1 (notification_sent_iff_complete sample_notify_env
                  sample_notification []) eq_refl).
Defined.

(** X14.  A request without a usable [company_name] - absent, null or
    empty - is sent under the sender name "Notifier", while its HTML
    speaks of "Your Company": the two defaults differ.  A non-empty
    [company_name] is used for both, as it came. *)
Theorem notification_defaults_differ :
  forall (e : Notification.env) (b : Notification.request)
         (outbox : list Notification.message),
    notification_complete b = true ->
    exists m,
      snd (Notification.send_notification e b outbox) = (outbox ++ [m])%list /\
      (truthy (Notification.company_name b) = false ->
       Notification.msg_from m =
         dq ++ "Notifier" ++ dq ++ " <" ++ template (Notification.GMAIL_USER e) ++ ">" /\
       occurs "Your Company" (Notification.msg_html m)) /\
      (forall c, Notification.company_name b = str c -> (c =? "")%string = false ->
       Notification.msg_from m =
         dq ++ c ++ dq ++ " <" ++ template (Notification.GMAIL_USER e) ++ ">" /\
       occurs c (Notification.msg_html m)).
Proof.
  intros e b outbox H. unfold Notification.send_notification.
  rewrite notification_guard, H. cbn [negb].
  destruct (Notification.sendMail e) as [r|err]; cbn [snd];
    eexists; (split; [reflexivity|]);
    cbn [Notification.msg_from Notification.msg_html]; split.
  1,3: intros Hc; unfold Notification.styledTemplate, or_else; rewrite Hc;
       cbn [template String.concat]; split; [reflexivity|find_occurrence].
  all: intros c Hc Hne; unfold Notification.styledTemplate, or_else; rewrite Hc;
       cbn [truthy]; rewrite Hne; cbn [negb template String.concat];
       split; [reflexivity|find_occurrence].
Qed.

Lemma notification_defaults_differ_witness :
  notification_complete sample_notification = true /\
  exists m,
    snd (Notification.send_notification sample_notify_env sample_notification []) =
      ([] ++ [m])%list /\
    (truthy (Notification.company_name sample_notification) = false ->
     Notification.msg_from m =
       dq ++ "Notifier" ++ dq ++ " <" ++
       template (Notification.GMAIL_USER sample_notify_env) ++ ">" /\
     occurs "Your Company" (Notification.msg_html m)) /\
    (forall c, Notification.company_name sample_notification = str c ->
     (c =? "")%string = false ->
     Notification.msg_from m =
       dq ++ c ++ dq ++ " <" ++
       template (Notification.GMAIL_USER sample_notify_env) ++ ">" /\
     occurs c (Notification.msg_html m)).
Proof.
  split; [reflexivity|].
  exact (notification_defaults_differ sample_notify_env sample_notification []
           eq_refl).
Defined.

(** * The marketing router *)

Lemma broadcast_guard (b : Marketing.email_body) :
  negb (truthy (Marketing.subject b)) || negb (truthy (Marketing.brand b)) ||
  negb (truthy (Marketing.headline b)) || negb (truthy (Marketing.message b)) ||
  negb (truthy (Marketing.cta b)) = negb (broadcast_complete b).
Proof.
  unfold broadcast_complete.
  now destruct (truthy (Marketing.subject b)), (truthy (Marketing.brand b)),
    (truthy (Marketing.headline b)), (truthy (Marketing.message b)),
    (truthy (Marketing.cta b)).
Qed.

(** A broadcast writes to neither table. *)
Lemma send_email_tables (e : Marketing.env) (p : string) (b : Marketing.email_body)
      (st : Marketing.state) :
  Marketing.marketers (snd (Marketing.send_email e p b st)) = Marketing.marketers st /\
  Marketing.contacts (snd (Marketing.send_email e p b st)) = Marketing.contacts st.
Proof.
  unfold Marketing.send_email. rewrite broadcast_guard.
  destruct (broadcast_complete b); cbn [negb]; [|now split].
  destruct (Marketing.all_failed e); [now split|].
  destruct (List.length _ =? 0)%nat; [now split|].
  destruct (Marketing.sendMail e); now split.
Qed.

(** The answer and the effect of a broadcast that gets past the guard
    and the SELECT. *)
Lemma send_email_cases (e : Marketing.env) (p : string) (b : Marketing.email_body)
      (st : Marketing.state) :
  broadcast_complete b = true -> Marketing.all_failed e = None ->
  let recipients := Marketing.recipients_of (toLowerCase p) st in
  (recipients = [] /\
   Marketing.send_email e p b st =
   (Replied (mkReply 404 (JVObject
      [("message", JVString "No contacts found for this company")])), st)) \/
  (recipients <> [] /\
   exists m,
     snd (Marketing.send_email e p b st) =
       Marketing.mkState (Marketing.marketers st) (Marketing.contacts st)
                         (Marketing.outbox st ++ [m])%list /\
     Marketing.msg_to m = recipients /\
     Marketing.msg_subject m = Marketing.subject b /\
     fst (Marketing.send_email e p b st) =
       Replied
         (match Marketing.sendMail e with
          | Undelivered err =>
              mkReply 500 (JVObject
                [("message", JVString "Failed to send email"); ("error", err)])
          | Delivered response =>
              mkReply 200 (JVObject
                ([("message", JVString "Email sent");
                  ("recipients", JVNumber (Z.of_nat (List.length recipients)))] ++
                 member "info" response)%list)
          end)).
Proof.
  intros Hc Ha recipients. subst recipients. unfold Marketing.send_email.
  rewrite broadcast_guard, Hc, Ha. cbn [negb].
  destruct (Marketing.recipients_of (toLowerCase p) st) as [|x l] eqn:R.
  - left. now split.
  - right. split; [discriminate|]. cbn [List.length Nat.eqb].
    destruct (Marketing.sendMail e); cbn [snd fst]; eexists;
      (split; [reflexivity|]); cbn [Marketing.msg_to Marketing.msg_subject];
      now repeat split.
Qed.

Lemma recipients_of_In (c a : string) (st : Marketing.state) :
  In a (Marketing.recipients_of c st) <->
  exists r, In r (Marketing.contacts st) /\
            Marketing.Contacts.company r = c /\ Marketing.Contacts.email r = a.
Proof.
  unfold Marketing.recipients_of. rewrite in_map_iff. split.
  - intros [r [Hr Hin]]. apply filter_In in Hin. destruct Hin as [Hin Hc].
    apply String.eqb_eq in Hc. now exists r.
  - intros [r [Hin [Hc Ha]]]. exists r. split; [exact Ha|].
    apply filter_In. split; [exact Hin|]. now apply String.eqb_eq.
Qed.

Lemma add_contact_contacts (i : Z) (p : string) (b : Marketing.contact_body)
      (e : string) (st : Marketing.state) :
  Marketing.contact_email b = str e -> (e =? "")%string = false ->
  Marketing.add_contact (Ran i) p b st =
  (Replied (mkReply 200 (JVObject
     [("message", JVString "Contact added"); ("contact_id", JVNumber i)])),
   Marketing.mkState (Marketing.marketers st)
     (Marketing.contacts st ++
        [Marketing.Contacts.mk i (toLowerCase p)
           (bind (or_else (Marketing.contact_name b) (str ""))) (toLowerCase e)])%list
     (Marketing.outbox st)).
Proof.
  intros Hb He. unfold Marketing.add_contact. rewrite Hb.
  cbn [truthy call_toLowerCase]. now rewrite He.
Qed.

(** No route removes a contact. *)
Lemma step_keeps_contacts (ev : Marketing.event) (st : Marketing.state)
      (r : Marketing.Contacts.row) :
  In r (Marketing.contacts st) -> In r (Marketing.contacts (Marketing.step ev st)).
Proof.
  intros Hin. destruct ev as [now ran b|ran p b|e p b]; cbn [Marketing.step].
  - unfold Marketing.register.
    destruct (negb (truthy (Marketing.reg_email b)) ||
              negb (truthy (Marketing.reg_company b))); [exact Hin|].
    destruct (call_toLowerCase (Marketing.reg_email b)); [|exact Hin].
    destruct (call_toLowerCase (Marketing.reg_company b)); [|exact Hin].
    destruct ran; exact Hin.
  - unfold Marketing.add_contact.
    destruct (negb (truthy (Marketing.contact_email b))); [exact Hin|].
    destruct (call_toLowerCase (Marketing.contact_email b)); [|exact Hin].
    destruct ran; [|exact Hin]. cbn [snd Marketing.contacts].
    apply in_or_app. now left.
  - now rewrite (proj2 (send_email_tables e p b st)).
Qed.

Lemma run_keeps_contacts (evs : list Marketing.event) (st : Marketing.state)
      (r : Marketing.Contacts.row) :
  In r (Marketing.contacts st) -> In r (Marketing.contacts (Marketing.run evs st)).
Proof.
  revert st. induction evs as [|ev evs IH]; intros st Hin; simpl; [exact Hin|].
  apply IH. now apply step_keeps_contacts.
Qed.

(** X15.  A contact added under a company is a recipient of every later
    broadcast to that company, however the company is capitalised in
    either path and whatever the router did in between: the broadcast is
    not answered 404, and the message it hands over lists the contact's
    address in lower case. *)
Theorem contact_reaches_every_broadcast :
  forall (i : Z) (p1 p2 e : string) (cb : Marketing.contact_body)
         (evs : list Marketing.event) (env : Marketing.env)
         (eb : Marketing.email_body) (st : Marketing.state),
    Marketing.contact_email cb = str e -> (e =? "")%string = false ->
    toLowerCase p1 = toLowerCase p2 ->
    broadcast_complete eb = true -> Marketing.all_failed env = None ->
    let st1 := Marketing.run evs (snd (Marketing.add_contact (Ran i) p1 cb st)) in
    (forall j, fst (Marketing.send_email env p2 eb st1) <> Replied (mkReply 404 j)) /\
    exists m,
      Marketing.outbox (snd (Marketing.send_email env p2 eb st1)) =
        (Marketing.outbox st1 ++ [m])%list /\
      In (toLowerCase e) (Marketing.msg_to m).
Proof.
  intros i p1 p2 e cb evs env eb st Hcb He Hp Hc Ha st1.
  assert (Hin : In (toLowerCase e) (Marketing.recipients_of (toLowerCase p2) st1)).
  { apply recipients_of_In.
    exists (Marketing.Contacts.mk i (toLowerCase p1)
              (bind (or_else (Marketing.contact_name cb) (str ""))) (toLowerCase e)).
    split; [|split; [exact Hp|reflexivity]].
    subst st1. apply run_keeps_contacts.
    rewrite (add_contact_contacts i p1 cb e st Hcb He). cbn [snd Marketing.contacts].
    apply in_or_app. right. now left. }
  destruct (send_email_cases env p2 eb st1 Hc Ha) as [[Hnil _]|[_ [m [Hs [Hto [_ Hf]]]]]].
  - rewrite Hnil in Hin. destruct Hin.
  - split.
    + intros j. rewrite Hf. destruct (Marketing.sendMail env); intros H; discriminate H.
    + exists m. rewrite Hs, Hto. split; [reflexivity|exact Hin].
Qed.

Lemma contact_reaches_every_broadcast_witness :
  toLowerCase "Acme" = toLowerCase "ACME" /\
  broadcast_complete sample_broadcast = true /\
  exists m,
    Marketing.outbox
      (snd (Marketing.send_email sample_broadcast_env "ACME" sample_broadcast
              (Marketing.run []
                 (snd (Marketing.add_contact (Ran 1) "Acme" sample_contact
                         Marketing.empty))))) =
      (Marketing.outbox
         (Marketing.run []
            (snd (Marketing.add_contact (Ran 1) "Acme" sample_contact
                    Marketing.empty))) ++ [m])%list /\
    In (toLowerCase "Bob@Example.com") (Marketing.msg_to m).
Proof.
  split; [reflexivity|]. split; [reflexivity|].
  exact (proj2 (contact_reaches_every_broadcast 1 "Acme" "ACME" "Bob@Example.com"
                  sample_contact [] sample_broadcast_env sample_broadcast
                  Marketing.empty eq_refl eq_refl eq_refl eq_refl eq_refl)).
Defined.

(** X16.  A broadcast that gets past the guard and the SELECT is answered
    404 exactly when no contact is stored under the lower-cased company,
    and then nothing is handed to the transport; in every other case one
    message is handed over, addressed to all the contacts of the company
    in table order, and a delivered one is answered 200 with their
    number.  No broadcast writes to a table. *)
Theorem broadcast_finds_contacts_or_404 :
  forall (env : Marketing.env) (p : string) (eb : Marketing.email_body)
         (st : Marketing.state),
    broadcast_complete eb = true -> Marketing.all_failed env = None ->
    let none := forall r, In r (Marketing.contacts st) ->
                          Marketing.Contacts.company r <> toLowerCase p in
    ((exists j, fst (Marketing.send_email env p eb st) = Replied (mkReply 404 j)) <->
     none) /\
    (none -> snd (Marketing.send_email env p eb st) = st) /\
    (~ none ->
     exists m,
       Marketing.outbox (snd (Marketing.send_email env p eb st)) =
         (Marketing.outbox st ++ [m])%list /\
       Marketing.msg_to m = Marketing.recipients_of (toLowerCase p) st /\
       forall r, Marketing.sendMail env = Delivered r ->
         fst (Marketing.send_email env p eb st) =
         Replied (mkReply 200 (JVObject
           ([("message", JVString "Email sent");
             ("recipients", JVNumber (Z.of_nat (List.length (Marketing.msg_to m))))] ++
            member "info" r)%list))) /\
    Marketing.marketers (snd (Marketing.send_email env p eb st)) = Marketing.marketers st /\
    Marketing.contacts (snd (Marketing.send_email env p eb st)) = Marketing.contacts st.
Proof.
  intros env p eb st Hc Ha none.
  assert (Hnone : none <-> Marketing.recipients_of (toLowerCase p) st = []).
  { subst none. split.
    - intros H. destruct (Marketing.recipients_of (toLowerCase p) st) as [|a l] eqn:R;
        [reflexivity|].
      assert (Hin : In a (Marketing.recipients_of (toLowerCase p) st))
        by (rewrite R; now left).
      apply recipients_of_In in Hin. destruct Hin as [r [Hin [Hr _]]].
      exfalso. exact (H r Hin Hr).
    - intros H r Hin Hr.
      assert (Hx : In (Marketing.Contacts.email r)
                      (Marketing.recipients_of (toLowerCase p) st))
        by (apply recipients_of_In; now exists r).
      rewrite H in Hx. destruct Hx. }
  destruct (send_email_cases env p eb st Hc Ha) as [[Hnil Hs]|[Hne [m [Hs [Hto [_ Hf]]]]]].
  - split; [|split; [|split]].
    + split; [intros _; now apply Hnone|intros _; rewrite Hs; now eexists].
    + intros _. now rewrite Hs.
    + intros H. exfalso. apply H. now apply Hnone.
    + apply send_email_tables.
  - split; [|split; [|split]].
    + split.
      * intros [j Hj]. rewrite Hf in Hj.
        destruct (Marketing.sendMail env); discriminate Hj.
      * intros H. exfalso. apply Hne. now apply Hnone.
    + intros H. exfalso. apply Hne. now apply Hnone.
    + intros _. exists m. rewrite Hs. split; [reflexivity|]. split; [exact Hto|].
      intros r Hr. rewrite Hf, Hr, Hto. reflexivity.
    + apply send_email_tables.
Qed.

Lemma broadcast_finds_contacts_or_404_witness :
  broadcast_complete sample_broadcast = true /\
  Marketing.all_failed sample_broadcast_env = None /\
  snd (Marketing.send_email sample_broadcast_env "Acme" sample_broadcast
         Marketing.empty) = Marketing.empty.
Proof.
  split; [reflexivity|]. split; [reflexivity|].
  apply (proj1 (proj2 (broadcast_finds_contacts_or_404 sample_broadcast_env "Acme"
                         sample_broadcast Marketing.empty eq_refl eq_refl))).
  intros r [].
Defined.

(** X17.  Contacts pile up: an accepted contact whose insertion completes
    becomes the last recipient of its own company, also when the same
    address is a recipient already, and the recipients of every other
    company stay as they were. *)
Theorem contacts_accumulate :
  forall (i : Z) (p e : string) (cb : Marketing.contact_body) (c : string)
         (st : Marketing.state),
    Marketing.contact_email cb = str e -> (e =? "")%string = false ->
    let st1 := snd (Marketing.add_contact (Ran i) p cb st) in
    Marketing.recipients_of (toLowerCase p) st1 =
      (Marketing.recipients_of (toLowerCase p) st ++ [toLowerCase e])%list /\
    (c <> toLowerCase p ->
     Marketing.recipients_of c st1 = Marketing.recipients_of c st).
Proof.
  intros i p e cb c st Hcb He st1. subst st1.
  rewrite (add_contact_contacts i p cb e st Hcb He). cbn [snd].
  unfold Marketing.recipients_of. cbn [Marketing.contacts].
  rewrite !filter_app, !map_app. cbn [filter Marketing.Contacts.company]. split.
  - now rewrite String.eqb_refl.
  - intros Hne. apply not_eq_sym, String.eqb_neq in Hne. rewrite Hne.
    apply app_nil_r.
Qed.

Lemma contacts_accumulate_witness :
  Marketing.contact_email sample_contact = str "Bob@Example.com" /\
  Marketing.recipients_of (toLowerCase "Acme")
    (snd (Marketing.add_contact (Ran 2) "Acme" sample_contact
            (snd (Marketing.add_contact (Ran 1) "ACME" sample_contact
                    Marketing.empty)))) =
  ["bob@example.com"; "bob@example.com"].
Proof.
  split; [reflexivity|].
  exact (proj1 (contacts_accumulate 2 "Acme" "Bob@Example.com" sample_contact ""
                  (snd (Marketing.add_contact (Ran 1) "ACME" sample_contact
                          Marketing.empty)) eq_refl eq_refl)).
Defined.

(** ** Registration *)

Lemma NoDup_append_one {A : Type} (x : A) (l : list A) :
  NoDup l -> ~ In x l -> NoDup (l ++ [x]).
Proof.
  induction l as [|y l IH]; intros H Hx; simpl.
  - constructor; [intros []|constructor].
  - inversion H as [|? ? Hy Hl]; subst. constructor.
    + intros Hin. apply in_app_or in Hin. destruct Hin as [Hin|[->|[]]].
      * now apply Hy.
      * apply Hx. now left.
    + apply IH; [exact Hl|]. intros Hin. apply Hx. now right.
Qed.

Lemma insert_or_ignore_NoDup (r : Marketing.Marketers.row)
      (l : list Marketing.Marketers.row) :
  NoDup (map Marketing.Marketers.company l) ->
  NoDup (map Marketing.Marketers.company (Marketing.insert_or_ignore r l)).
Proof.
  intros H. unfold Marketing.insert_or_ignore.
  destruct (existsb _ l) eqn:E; [exact H|].
  rewrite map_app. simpl. apply NoDup_append_one; [exact H|].
  intros Hin. apply in_map_iff in Hin. destruct Hin as [x [Hx Hin]].
  assert (Ht : existsb (fun y => (Marketing.Marketers.company y =?
                                  Marketing.Marketers.company r)%string) l = true).
  { apply existsb_exists. exists x. split; [exact Hin|]. now apply String.eqb_eq. }
  congruence.
Qed.

Lemma step_marketers_NoDup (ev : Marketing.event) (st : Marketing.state) :
  NoDup (map Marketing.Marketers.company (Marketing.marketers st)) ->
  NoDup (map Marketing.Marketers.company
           (Marketing.marketers (Marketing.step ev st))).
Proof.
  intros H. destruct ev as [now ran b|ran p b|e p b]; cbn [Marketing.step].
  - unfold Marketing.register.
    destruct (negb (truthy (Marketing.reg_email b)) ||
              negb (truthy (Marketing.reg_company b))); [exact H|].
    destruct (call_toLowerCase (Marketing.reg_email b)); [|exact H].
    destruct (call_toLowerCase (Marketing.reg_company b)); [|exact H].
    destruct ran; [|exact H]. cbn [snd Marketing.marketers].
    now apply insert_or_ignore_NoDup.
  - unfold Marketing.add_contact.
    destruct (negb (truthy (Marketing.contact_email b))); [exact H|].
    destruct (call_toLowerCase (Marketing.contact_email b)); [|exact H].
    destruct ran; exact H.
  - now rewrite (proj1 (send_email_tables e p b st)).
Qed.

(** X18.  A company is registered once.  In every state reached from the
    empty tables no two marketers have the same company; registering a
    company that is there already, in whatever capitals, changes nothing
    - the email first given stays - and is answered 200 "Marketer
    registered" all the same, with the id the driver reports. *)
Theorem company_is_registered_once :
  (forall (evs : list Marketing.event),
      NoDup (map Marketing.Marketers.company
               (Marketing.marketers (Marketing.run evs Marketing.empty)))) /\
  (forall (now i : Z) (e c : string) (st : Marketing.state),
      (e =? "")%string = false -> (c =? "")%string = false ->
      In (toLowerCase c) (map Marketing.Marketers.company (Marketing.marketers st)) ->
      Marketing.register now (Ran i) (Marketing.mkRegister (str e) (str c)) st =
      (Replied (mkReply 200 (JVObject
         [("message", JVString "Marketer registered");
          ("marketer_id", JVNumber i)])), st)) /\
  (forall (now i : Z) (e c : string) (st : Marketing.state),
      (e =? "")%string = false -> (c =? "")%string = false ->
      ~ In (toLowerCase c) (map Marketing.Marketers.company (Marketing.marketers st)) ->
      Marketing.marketers
        (snd (Marketing.register now (Ran i) (Marketing.mkRegister (str e) (str c)) st)) =
      (Marketing.marketers st ++
         [Marketing.Marketers.mk i (toLowerCase c) (toLowerCase e) now])%list).
Proof.
  split; [|split].
  - intros evs.
    assert (G : forall st,
               NoDup (map Marketing.Marketers.company (Marketing.marketers st)) ->
               NoDup (map Marketing.Marketers.company
                        (Marketing.marketers (Marketing.run evs st)))).
    { induction evs as [|ev evs IH]; intros st H; simpl; [exact H|].
      apply IH. now apply step_marketers_NoDup. }
    apply G. constructor.
  - intros now i e c st He Hc Hin. unfold Marketing.register.
    cbn [Marketing.reg_email Marketing.reg_company truthy call_toLowerCase].
    rewrite He, Hc. cbn [negb orb]. unfold Marketing.insert_or_ignore.
    cbn [Marketing.Marketers.company].
    assert (Ht : existsb (fun x => (Marketing.Marketers.company x =?
                                    toLowerCase c)%string)
                         (Marketing.marketers st) = true).
    { apply in_map_iff in Hin. destruct Hin as [x [Hx Hin]].
      apply existsb_exists. exists x. split; [exact Hin|]. now apply String.eqb_eq. }
    rewrite Ht. now destruct st.
  - intros now i e c st He Hc Hnin. unfold Marketing.register.
    cbn [Marketing.reg_email Marketing.reg_company truthy call_toLowerCase].
    rewrite He, Hc. cbn [negb orb snd Marketing.marketers].
    unfold Marketing.insert_or_ignore. cbn [Marketing.Marketers.company].
    destruct (existsb _ (Marketing.marketers st)) eqn:E; [|reflexivity].
    exfalso. apply Hnin. apply existsb_exists in E. destruct E as [x [Hin Hx]].
    apply String.eqb_eq in Hx. apply in_map_iff. now exists x.
Qed.

Lemma company_is_registered_once_witness :
  In (toLowerCase "ACME")
     (map Marketing.Marketers.company
        (Marketing.marketers
           (snd (Marketing.register 5 (Ran 1)
                   (Marketing.mkRegister (str "first@example.com") (str "Acme"))
                   Marketing.empty)))) /\
  Marketing.marketers
    (snd (Marketing.register 9 (Ran 1)
            (Marketing.mkRegister (str "second@example.com") (str "ACME"))
            (snd (Marketing.register 5 (Ran 1)
                    (Marketing.mkRegister (str "first@example.com") (str "Acme"))
                    Marketing.empty)))) =
  [Marketing.Marketers.mk 1 "acme" "first@example.com" 5].
Proof.
  assert (Hin : In (toLowerCase "ACME")
     (map Marketing.Marketers.company
        (Marketing.marketers
           (snd (Marketing.register 5 (Ran 1)
                   (Marketing.mkRegister (str "first@example.com") (str "Acme"))
                   Marketing.empty))))) by (now left).
  split; [exact Hin|].
  rewrite (proj1 (proj2 company_is_registered_once) 9 1 "second@example.com" "ACME"
             _ eq_refl eq_refl Hin).
  reflexivity.
Defined.

(** ** What the tables hold, and what escapes *)

Lemma step_lowercase (ev : Marketing.event) (st : Marketing.state) :
  Forall (fun r => lowercase (Marketing.Marketers.company r) /\
                   lowercase (Marketing.Marketers.email r)) (Marketing.marketers st) ->
  Forall (fun r => lowercase (Marketing.Contacts.company r) /\
                   lowercase (Marketing.Contacts.email r)) (Marketing.contacts st) ->
  Forall (fun r => lowercase (Marketing.Marketers.company r) /\
                   lowercase (Marketing.Marketers.email r))
         (Marketing.marketers (Marketing.step ev st)) /\
  Forall (fun r => lowercase (Marketing.Contacts.company r) /\
                   lowercase (Marketing.Contacts.email r))
         (Marketing.contacts (Marketing.step ev st)).
Proof.
  intros Hm Hc. destruct ev as [now ran b|ran p b|e p b]; cbn [Marketing.step].
  - unfold Marketing.register.
    destruct (negb (truthy (Marketing.reg_email b)) ||
              negb (truthy (Marketing.reg_company b))); [now split|].
    destruct (Marketing.reg_email b) as [| |e]; cbn [call_toLowerCase]; try now split.
    destruct (Marketing.reg_company b) as [| |c]; cbn [call_toLowerCase]; try now split.
    destruct ran; [|now split]. cbn [snd Marketing.marketers Marketing.contacts].
    split; [|exact Hc]. unfold Marketing.insert_or_ignore.
    destruct (existsb _ _); [exact Hm|].
    apply Forall_app. split; [exact Hm|].
    constructor; [|constructor]. split; apply toLowerCase_idempotent.
  - unfold Marketing.add_contact.
    destruct (negb (truthy (Marketing.contact_email b))); [now split|].
    destruct (Marketing.contact_email b) as [| |e]; cbn [call_toLowerCase];
      try now split.
    destruct ran; [|now split]. cbn [snd Marketing.marketers Marketing.contacts].
    split; [exact Hm|]. apply Forall_app. split; [exact Hc|].
    constructor; [|constructor]. split; apply toLowerCase_idempotent.
  - destruct (send_email_tables e p b st) as [-> ->]. now split.
Qed.

(** X19.  Everything the router stores is in lower case: in every state
    reached from the empty tables, the company and the email of each
    marketer and of each contact are left unchanged by lower-casing.
    This is what lets the lower-cased path parameter find them. *)
Theorem tables_hold_lower_case :
  forall (evs : list Marketing.event),
    Forall (fun r => lowercase (Marketing.Marketers.company r) /\
                     lowercase (Marketing.Marketers.email r))
           (Marketing.marketers (Marketing.run evs Marketing.empty)) /\
    Forall (fun r => lowercase (Marketing.Contacts.company r) /\
                     lowercase (Marketing.Contacts.email r))
           (Marketing.contacts (Marketing.run evs Marketing.empty)).
Proof.
  intros evs.
  assert (G : forall st,
    Forall (fun r => lowercase (Marketing.Marketers.company r) /\
                     lowercase (Marketing.Marketers.email r)) (Marketing.marketers st) ->
    Forall (fun r => lowercase (Marketing.Contacts.company r) /\
                     lowercase (Marketing.Contacts.email r)) (Marketing.contacts st) ->
    Forall (fun r => lowercase (Marketing.Marketers.company r) /\
                     lowercase (Marketing.Marketers.email r))
           (Marketing.marketers (Marketing.run evs st)) /\
    Forall (fun r => lowercase (Marketing.Contacts.company r) /\
                     lowercase (Marketing.Contacts.email r))
           (Marketing.contacts (Marketing.run evs st))).
  { induction evs as [|ev evs IH]; intros st Hm Hc; simpl; [now split|].
    destruct (step_lowercase ev st Hm Hc) as [Hm' Hc']. now apply IH. }
  apply G; constructor.
Qed.

(** X20.  No request makes a handler of the marketing router throw: each
    of the three routes answers every body and every path parameter, and
    a body that lacks a required member is answered 400 with the tables
    and the outbox left as they were. *)
Theorem marketing_always_answers :
  forall (now : Z) (ran : run_result) (env : Marketing.env) (p : string)
         (rb : Marketing.register_body) (cb : Marketing.contact_body)
         (eb : Marketing.email_body) (st : Marketing.state),
    (exists r, fst (Marketing.register now ran rb st) = Replied r) /\
    (exists r, fst (Marketing.add_contact ran p cb st) = Replied r) /\
    (exists r, fst (Marketing.send_email env p eb st) = Replied r) /\
    (truthy (Marketing.reg_email rb) && truthy (Marketing.reg_company rb) = false ->
     exists j, Marketing.register now ran rb st = (Replied (mkReply 400 j), st)) /\
    (truthy (Marketing.contact_email cb) = false ->
     exists j, Marketing.add_contact ran p cb st = (Replied (mkReply 400 j), st)) /\
    (broadcast_complete eb = false ->
     exists j, Marketing.send_email env p eb st = (Replied (mkReply 400 j), st)).
Proof.
  intros now ran env p rb cb eb st. split; [|split; [|split; [|split; [|split]]]].
  - unfold Marketing.register.
    destruct (truthy (Marketing.reg_email rb)) eqn:E; cbn [negb orb];
      [|eexists; reflexivity].
    destruct (truthy (Marketing.reg_company rb)) eqn:C; cbn [negb];
      [|eexists; reflexivity].
    apply truthy_str in E, C. destruct E as [e [-> _]], C as [c [-> _]].
    cbn [call_toLowerCase]. destruct ran; eexists; reflexivity.
  - unfold Marketing.add_contact.
    destruct (truthy (Marketing.contact_email cb)) eqn:E; cbn [negb];
      [|eexists; reflexivity].
    apply truthy_str in E. destruct E as [e [-> _]].
    cbn [call_toLowerCase]. destruct ran; eexists; reflexivity.
  - unfold Marketing.send_email. rewrite broadcast_guard.
    destruct (broadcast_complete eb); cbn [negb]; [|eexists; reflexivity].
    destruct (Marketing.all_failed env); [eexists; reflexivity|].
    destruct (List.length _ =? 0)%nat; [eexists; reflexivity|].
    destruct (Marketing.sendMail env); eexists; reflexivity.
  - intros H. unfold Marketing.register.
    destruct (truthy (Marketing.reg_email rb)), (truthy (Marketing.reg_company rb));
      try discriminate H; eexists; reflexivity.
  - intros H. unfold Marketing.add_contact. rewrite H. eexists; reflexivity.
  - intros H. unfold Marketing.send_email. rewrite broadcast_guard, H.
    eexists; reflexivity.
Qed.

Lemma marketing_always_answers_witness :
  truthy (Marketing.contact_email (Marketing.mkContact (str "Bob") undefined)) = false /\
  exists j, Marketing.add_contact (Ran 1) "Acme"
              (Marketing.mkContact (str "Bob") undefined) Marketing.empty =
            (Replied (mkReply 400 j), Marketing.empty).
Proof.
  split; [reflexivity|].
  exact (proj1 (proj2 (proj2 (proj2 (proj2
    (marketing_always_answers 0 (Ran 1) sample_broadcast_env "Acme"
       (Marketing.mkRegister undefined undefined)
       (Marketing.mkContact (str "Bob") undefined)
       sample_broadcast Marketing.empty))))) eq_refl).
Defined.

(** ** The body of a broadcast *)



